(** * error_handler.py: error aggregation and run reporting

    A shallow embedding of [src/error_handler.py] (Python 2) and the
    properties of its grouping, rendering and ingestion code.

    Modelling choices, all taken from the source:
    - Python values used as grouping keys are [None] or a [str]: [option string];
      Python 2 orders [None] before every string and strings bytewise.
    - [ErrorCollection] is a Python [list]: a Rocq [list] in ingestion order.
    - the dicts built by the program ([error_dict], [RecordCounter],
      [_r_counter]) are association lists in insertion order with unique keys;
      the order in which [keys()] and [items()] enumerate them is the
      interpreter's business and is a parameter ([DictOrder]).
    - [data_dict] is only probed ([has_key], [d[k]]): a [gmap string string].
    - [d[k]] raises [KeyError] on a missing key: results live in [result]. *)

From Stdlib Require Import List String Ascii ZArith Lia Bool Permutation Sorted.
From Stdlib Require Import DecimalString.
From stdpp Require Import base option gmap strings sorting.
Import ListNotations.

Local Open Scope string_scope.
Local Open Scope list_scope.

(** ** Exceptions *)

Inductive exn := KeyError.

Inductive result (A : Type) : Type :=
| Ok (a : A)
| Raise (e : exn).
Arguments Ok {A} a.
Arguments Raise {A} e.

#[global] Instance result_ret : MRet result := fun A a => Ok a.
#[global] Instance result_bind : MBind result := fun A B f m =>
  match m with
  | Ok a => f a
  | Raise e => Raise e
  end.

(** A [for] loop whose body may raise: the accumulator is threaded through. *)
Fixpoint for_each {A S} (l : list A) (body : S -> A -> result S) (s : S) : result S :=
  match l with
  | [] => Ok s
  | x :: l' => s' ← body s x; for_each l' body s'
  end.

(** ** Python values as the program uses them *)

(** A grouping key: [None] or a byte string. *)
Abbreviation pykey := (option string).

(** [x < y] of Python 2 on keys: [None] is smaller than every string,
    strings compare bytewise. *)
Definition py_lt (x y : pykey) : bool :=
  match x, y with
  | None, None => false
  | None, Some _ => true
  | Some _, None => false
  | Some a, Some b => String.ltb a b
  end.

(** ['%s' % x] for a key or an optional field: [None] prints as its name. *)
Definition fmt_s (x : option string) : string :=
  match x with
  | None => "None"
  | Some s => s
  end.

(** ['%s' % n] for a length and for a counter value. *)
Definition fmt_nat (n : nat) : string := NilEmpty.string_of_uint (Nat.to_uint n).
Definition fmt_int (z : Z) : string := NilEmpty.string_of_int (Z.to_int z).

Definition nl : string := String (ascii_of_nat 10) EmptyString.
Definition tab : string := String (ascii_of_nat 9) EmptyString.

(** ** Dictionaries *)

(** The order in which a Python 2 dict enumerates its keys depends on the
    hashes and on the table, not on the program: all the program may rely
    on is that every key is enumerated once.  [iter_keys] maps the keys in
    insertion order to the keys in enumeration order. *)
Class DictOrder (K : Type) := {
  iter_keys : list K -> list K;
  iter_keys_perm : forall l, Permutation (iter_keys l) l
}.

Definition dict (K V : Type) : Type := list (K * V).

Module PyDict.
Section PyDict.
Context {K V : Type} `{EqDecision K}.

Definition empty : dict K V := [].

Fixpoint find (d : dict K V) (k : K) : option V :=
  match d with
  | [] => None
  | (k', v) :: d' => if decide (k = k') then Some v else find d' k
  end.

Definition has_key (d : dict K V) (k : K) : bool :=
  match find d k with
  | Some _ => true
  | None => false
  end.

(** [d[k]] *)
Definition getitem (d : dict K V) (k : K) : result V :=
  match find d k with
  | Some v => Ok v
  | None => Raise KeyError
  end.

(** [d[k] = v]: a known key keeps its place, a new key is added. *)
Fixpoint setitem (d : dict K V) (k : K) (v : V) : dict K V :=
  match d with
  | [] => [(k, v)]
  | (k', v') :: d' =>
      if decide (k = k') then (k, v) :: d' else (k', v') :: setitem d' k v
  end.

Definition len (d : dict K V) : nat := length d.

Definition keys `{DictOrder K} (d : dict K V) : list K :=
  iter_keys (map fst d).

(** [d.items()]: the pairs, in the order of [d.keys()]. *)
Definition items `{DictOrder K} (d : dict K V) : list (K * V) :=
  omap (fun k => match find d k with
                 | Some v => Some (k, v)
                 | None => None
                 end) (keys d).
End PyDict.
End PyDict.

(** ** [sorted] and [itertools.groupby] *)

Section SortGroup.
Context {A : Type} (key : A -> pykey).

(** [x] goes before the first element that is not smaller than it. *)
Fixpoint insert_by (x : A) (l : list A) : list A :=
  match l with
  | [] => [x]
  | y :: l' =>
      if py_lt (key y) (key x) then y :: insert_by x l' else x :: y :: l'
  end.

(** [sorted(l, key=key)]: ascending and stable. *)
Definition sorted (l : list A) : list A := fold_right insert_by [] l.

(** [itertools.groupby(l, key)], every group read out with [list]:
    the maximal runs of consecutive elements with equal keys. *)
Fixpoint groupby (l : list A) : list (pykey * list A) :=
  match l with
  | [] => []
  | x :: l' =>
      match groupby l' with
      | (k, g) :: gs =>
          if decide (key x = k) then (key x, x :: g) :: gs
          else (key x, [x]) :: (k, g) :: gs
      | [] => [(key x, [x])]
      end
  end.
End SortGroup.

(** ** Error records *)

(** What [ErrorCollection] asks of its elements: the attributes [target]
    and [stage], and [__str__]. *)
Class ErrorRecord (A : Type) := {
  target : A -> pykey;
  stage : A -> pykey;
  str : A -> string
}.

Module ValidationError.
Record t := __init__ {
  target : option string;
  stage : string;
  suffix : option string;
  parameter : string;
  value : option string;
  notice : option string
}.

Definition __str__ (self : t) : string :=
  "Error: " +:+ fmt_s (notice self) +:+ ", Value of " +:+ parameter self
    +:+ " = '" +:+ fmt_s (value self) +:+ "' for " +:+ (stage self +:+ "_")
    +:+ "id = '" +:+ fmt_s (suffix self) +:+ "'" +:+ nl.
End ValidationError.

#[global] Instance ValidationError_record : ErrorRecord ValidationError.t := {
  target := ValidationError.target;
  stage := fun o => Some (ValidationError.stage o);
  str := ValidationError.__str__
}.

Module ConsistencyError.
Record t := __init__ {
  target : option string;
  stage : option string;
  suffix : option string
}.

Definition __str__ (self : t) : string :=
  "Missing suffix: " +:+ fmt_s (suffix self) +:+ nl.
End ConsistencyError.

#[global] Instance ConsistencyError_record : ErrorRecord ConsistencyError.t := {
  target := ConsistencyError.target;
  stage := ConsistencyError.stage;
  str := ConsistencyError.__str__
}.

(** ** [class ErrorCollection(list)] *)

Module ErrorCollection.
Section ErrorCollection.
Context {A : Type} `{ErrorRecord A} `{DictOrder pykey}.

(** [list.append] *)
Definition append (self : list A) (x : A) : list A := self ++ [x].

Definition __group_errors_t_s (self : list A)
  : result (dict pykey (dict pykey (list A))) :=
  let error_dict := PyDict.empty in
  for_each (groupby target (sorted target self))
    (fun error_dict '(k, v) =>
       let error_dict := PyDict.setitem error_dict k PyDict.empty in
       for_each (groupby stage (sorted stage v))
         (fun error_dict '(s, e) =>
            error_dict_k ← PyDict.getitem error_dict k;
            Ok (PyDict.setitem error_dict k (PyDict.setitem error_dict_k s e)))
         error_dict)
    error_dict.

Definition __group_errors_s (self : list A) : result (dict pykey (list A)) :=
  let error_dict := PyDict.empty in
  for_each (groupby stage (sorted stage self))
    (fun error_dict '(k, v) => Ok (PyDict.setitem error_dict k v))
    error_dict.

Definition get_error_msg (self : list A) : result string :=
  let message := "" in
  error_dict ← __group_errors_t_s self;
  let error_dict_keys := PyDict.keys error_dict in
  for_each (sorted id error_dict_keys)
    (fun message k =>
       let message := message +:+ ("Target: " +:+ fmt_s k +:+ nl) in
       error_dict_k ← PyDict.getitem error_dict k;
       for_each (PyDict.items error_dict_k)
         (fun message '(stage, items) =>
            let message :=
              message +:+ (tab +:+ "Stage: " +:+ fmt_s stage +:+ tab +:+ "("
                           +:+ fmt_nat (length items) +:+ " error(s))." +:+ nl) in
            for_each items
              (fun message item => Ok (message +:+ (tab +:+ tab +:+ str item)))
              message)
         message)
    message.

Definition get_error_count_summary (self : list A) : result string :=
  let message := "" in
  error_dict ← __group_errors_s self;
  let grand_total := 0 in
  '(message, grand_total) ←
    for_each (PyDict.items error_dict)
      (fun '(message, grand_total) '(k, v) =>
         let errors_count := length v in
         let message := message +:+ (tab +:+ fmt_nat errors_count +:+ " in "
                                     +:+ fmt_s k +:+ nl) in
         Ok (message, grand_total + errors_count))
      (message, grand_total);
  Ok (fmt_nat grand_total +:+ " error(s) occured during this run." +:+ nl
      +:+ message).

Definition get_error_count_msg (self : list A) : result string :=
  let message := "" in
  error_dict ← __group_errors_t_s self;
  let error_dict_keys := PyDict.keys error_dict in
  let grand_total := 0 in
  '(message, grand_total) ←
    for_each (sorted id error_dict_keys)
      (fun '(message, grand_total) k =>
         let detailed_message := "" in
         let total := 0 in
         error_dict_k ← PyDict.getitem error_dict k;
         '(detailed_message, total) ←
           for_each (PyDict.items error_dict_k)
             (fun '(detailed_message, total) '(stage, items) =>
                let total := total + length items in
                Ok (detailed_message +:+ (tab +:+ fmt_nat (length items)
                                          +:+ " in " +:+ fmt_s stage +:+ nl),
                    total))
             (detailed_message, total);
         let grand_total := grand_total + total in
         Ok (message +:+ ("Target: " +:+ fmt_s k +:+ tab +:+ "("
                          +:+ fmt_nat total +:+ " error(s))" +:+ nl
                          +:+ detailed_message),
             grand_total))
      (message, grand_total);
  Ok (fmt_nat grand_total +:+ " error(s) occured during this run." +:+ nl
      +:+ " " +:+ message).
End ErrorCollection.
End ErrorCollection.

(** ** [class RecordCounter(dict)] and [class DatabaseErrorCollection] *)

Module RecordCounter.
Definition t := dict string Z.

Definition increment (self : t) (counter_name : string) : result t :=
  if PyDict.has_key self counter_name then
    n ← PyDict.getitem self counter_name;
    Ok (PyDict.setitem self counter_name (n + 1)%Z)
  else
    Ok (PyDict.setitem self counter_name 1%Z).
End RecordCounter.

Module DatabaseErrorCollection.
Section DatabaseErrorCollection.
Context `{DictOrder string}.

Definition get_error_msg (self : RecordCounter.t) : string :=
  match self with
  | _ :: _ =>
      fold_left
        (fun message '(k, v) =>
           message +:+ ("In " +:+ fmt_int v +:+ " recod(s):" +:+ nl +:+ k +:+ nl))
        (PyDict.items self)
        ("Following database errors occured during the run:" +:+ nl)
  | [] => "There were no database errors during this run."
  end.

Definition get_error_count_msg (self : RecordCounter.t) : string :=
  fmt_nat (PyDict.len self) +:+ " error(s) occured during run." +:+ nl.
End DatabaseErrorCollection.
End DatabaseErrorCollection.

(** ** [data_dict]: the record handed to [attach_validation_error] *)

Module DataDict.
Definition has_key (d : gmap string string) (k : string) : bool :=
  bool_decide (is_Some (d !! k)).

Definition getitem (d : gmap string string) (k : string) : result string :=
  match d !! k with
  | Some v => Ok v
  | None => Raise KeyError
  end.
End DataDict.

(** ** [class ErrorHandler] *)

Module ErrorHandler.
(** The four owned collections, and the lines handed to the log sink. *)
Record t := Build {
  _validation_error_collection : list ValidationError.t;
  _db_error_collection : RecordCounter.t;
  _consistency_error_collection : list ConsistencyError.t;
  _r_counter : dict string RecordCounter.t;
  _logger : list string
}.

Definition __init__ : t :=
  Build [] PyDict.empty [] PyDict.empty ["Logger initiated."].

(** [self._logger.info(text)] *)
Definition info (self : t) (text : string) : t :=
  Build (_validation_error_collection self) (_db_error_collection self)
        (_consistency_error_collection self) (_r_counter self)
        (_logger self ++ [text]).

Definition attach_db_error (self : t) (text : string) : result t :=
  let self := info self text in
  db ← RecordCounter.increment (_db_error_collection self) text;
  Ok (Build (_validation_error_collection self) db
            (_consistency_error_collection self) (_r_counter self)
            (_logger self)).

Definition attach_consistency_error (self : t) (target stage id : option string)
  : result t :=
  Ok (Build (_validation_error_collection self) (_db_error_collection self)
            (ErrorCollection.append (_consistency_error_collection self)
               (ConsistencyError.__init__ target stage id))
            (_r_counter self) (_logger self)).

Definition attach_validation_error (self : t) (stage param : string)
    (data_dict : gmap string string) (notice : option string) : result t :=
  let target := None in
  let suffix := None in
  let parameter := param in
  let value := None in
  target ← (if DataDict.has_key data_dict "protein_target_id"
            then v ← DataDict.getitem data_dict "protein_target_id"; Ok (Some v)
            else Ok target);
  let target := if decide (stage = "protocol") then Some "Protocol" else target in
  suffix ← (if DataDict.has_key data_dict (stage +:+ "_id")
            then v ← DataDict.getitem data_dict (stage +:+ "_id"); Ok (Some v)
            else Ok suffix);
  value ← (if DataDict.has_key data_dict param
           then v ← DataDict.getitem data_dict param; Ok (Some v)
           else Ok value);
  Ok (Build (ErrorCollection.append (_validation_error_collection self)
               (ValidationError.__init__ target stage suffix parameter value notice))
            (_db_error_collection self) (_consistency_error_collection self)
            (_r_counter self) (_logger self)).

(** The shared opening of the four counter methods:
    [if not self._r_counter.has_key(stage): self._r_counter[stage] = RecordCounter()] *)
Definition ensure_stage (r : dict string RecordCounter.t) (stage : string)
  : dict string RecordCounter.t :=
  if negb (PyDict.has_key r stage) then PyDict.setitem r stage PyDict.empty else r.

Definition with_r_counter (self : t) (r : dict string RecordCounter.t) : t :=
  Build (_validation_error_collection self) (_db_error_collection self)
        (_consistency_error_collection self) r (_logger self).

Definition increment_updated (self : t) (stage : string) : result t :=
  let r := ensure_stage (_r_counter self) stage in
  rc ← PyDict.getitem r stage;
  rc ← RecordCounter.increment rc "updated";
  Ok (with_r_counter self (PyDict.setitem r stage rc)).

Definition increment_inserted (self : t) (stage : string) : result t :=
  let r := ensure_stage (_r_counter self) stage in
  rc ← PyDict.getitem r stage;
  rc ← RecordCounter.increment rc "inserted";
  Ok (with_r_counter self (PyDict.setitem r stage rc)).

Definition set_lab_db_count (self : t) (stage : string) (value : Z) : result t :=
  let r := ensure_stage (_r_counter self) stage in
  rc ← PyDict.getitem r stage;
  Ok (with_r_counter self (PyDict.setitem r stage (PyDict.setitem rc "lab_db" value))).

Definition set_center_db_count (self : t) (stage : string) (value : Z) : result t :=
  let r := ensure_stage (_r_counter self) stage in
  rc ← PyDict.getitem r stage;
  Ok (with_r_counter self (PyDict.setitem r stage (PyDict.setitem rc "center_db" value))).

Section Reports.
Context `{DictOrder pykey} `{DictOrder string}.

Definition get_validation_error_msg (self : t) : result string :=
  ErrorCollection.get_error_msg (_validation_error_collection self).

Definition get_consistency_error_msg (self : t) : result string :=
  ErrorCollection.get_error_msg (_consistency_error_collection self).

Definition get_db_error_msg (self : t) : string :=
  DatabaseErrorCollection.get_error_msg (_db_error_collection self).

Definition get_validation_errors_statistics_msg (self : t) : result string :=
  ErrorCollection.get_error_count_msg (_validation_error_collection self).

Definition get_validation_errors_statistics_summary (self : t) : result string :=
  ErrorCollection.get_error_count_summary (_validation_error_collection self).

Definition get_consistency_errors_statistics_msg (self : t) : result string :=
  ErrorCollection.get_error_count_msg (_consistency_error_collection self).

Definition get_database_errors_statistics_msg (self : t) : string :=
  DatabaseErrorCollection.get_error_count_msg (_db_error_collection self).

Definition get_count_values_msg (self : t) : string :=
  fold_left
    (fun message '(stage, rc) =>
       fold_left
         (fun message '(k, v) =>
            message +:+ (tab +:+ k +:+ " records: " +:+ fmt_int v +:+ nl))
         (PyDict.items rc)
         (message +:+ (stage +:+ ":" +:+ nl)))
    (PyDict.items (_r_counter self))
    "".
End Reports.
End ErrorHandler.

(** ** The dict of CPython 2.7 (64-bit, hash randomisation off)

    One interpreter's enumeration order, to run the reports on concrete
    collections: the string hash, the open-addressing table with its
    perturbed probe sequence, and the resize at two thirds full.  The
    enumeration visits the table slots in index order. *)

Module CPython27.
Local Open Scope Z_scope.

Definition wrap (x : Z) : Z := x mod 2 ^ 64.

Definition ord (c : ascii) : Z := Z.of_N (N_of_ascii c).

Fixpoint hash_loop (s : string) (x : Z) : Z :=
  match s with
  | EmptyString => x
  | String c s' => hash_loop s' (Z.lxor (wrap (1000003 * x)) (ord c))
  end.

(** [string_hash], read as an unsigned word. *)
Definition string_hash (s : string) : Z :=
  match s with
  | EmptyString => 0
  | String c _ =>
      let x := hash_loop s (wrap (Z.shiftl (ord c) 7)) in
      let x := Z.lxor x (Z.of_nat (String.length s)) in
      if x =? 2 ^ 64 - 1 then 2 ^ 64 - 2 else x
  end.

Section Table.
Context {K : Type} (hash : K -> Z).

(** The occupied slots, in insertion order. *)
Definition entries := list (Z * K).

Definition occupied (t : entries) (slot : Z) : bool :=
  existsb (fun e => fst e =? slot) t.

(** The probe sequence of [lookdict]; it ends within [fuel] steps as
    long as the table has a free slot. *)
Fixpoint probe (fuel : nat) (mask : Z) (t : entries) (i perturb : Z) : Z :=
  if negb (occupied t (Z.land i mask)) then Z.land i mask
  else match fuel with
       | O => mask + 1
       | S fuel' =>
           probe fuel' mask t (wrap (Z.shiftl i 2 + i + perturb + 1))
                 (Z.shiftr perturb 5)
       end.

Definition insert_clean (mask : Z) (t : entries) (k : K) : entries :=
  t ++ [(probe (Z.to_nat (mask + 14)) mask t (Z.land (hash k) mask) (hash k), k)].

Fixpoint insert_slot (e : Z * K) (l : entries) : entries :=
  match l with
  | [] => [e]
  | e' :: l' => if fst e' <? fst e then e' :: insert_slot e l' else e :: e' :: l'
  end.

Definition by_slot (t : entries) : entries := fold_right insert_slot [] t.

Fixpoint grow (fuel : nat) (newsize minused : Z) : Z :=
  match fuel with
  | O => newsize
  | S fuel' => if newsize <=? minused then grow fuel' (2 * newsize) minused else newsize
  end.

(** [dictresize]: a larger table, refilled in slot order. *)
Definition dictresize (t : entries) (minused : Z) : Z * entries :=
  let mask := grow 64 8 minused - 1 in
  (mask, fold_left (insert_clean mask) (map snd (by_slot t)) []).

(** [d[k] = v] for a key that is not in the table yet. *)
Definition insertdict (mt : Z * entries) (k : K) : Z * entries :=
  let '(mask, t) := mt in
  let t := insert_clean mask t k in
  let used := Z.of_nat (length t) in
  if used * 3 >=? (mask + 1) * 2
  then dictresize t ((if used >? 50000 then 2 else 4) * used)
  else (mask, t).

Definition enumerate (l : list K) : list K :=
  map snd (by_slot (snd (fold_left insertdict l (7, [])))).
End Table.

(** [hash(None)] is the address of the [None] object rotated by four bits,
    a value that changes from one build to the next: [none_hash] stands
    for it. *)
Definition key_hash (none_hash : Z) (k : pykey) : Z :=
  match k with
  | None => none_hash
  | Some s => string_hash s
  end.
End CPython27.

(** * Properties *)

(** ** The formatting of numbers *)

Example fmt_nat_0 : fmt_nat 0 = "0".
Proof. reflexivity. Qed.

Example fmt_nat_231 : fmt_nat 231 = "231".
Proof. reflexivity. Qed.

Example fmt_int_neg : fmt_int (-42) = "-42".
Proof. reflexivity. Qed.

(** ** The order on keys *)

Lemma ascii_compare_refl c : Ascii.compare c c = Eq.
Proof. unfold Ascii.compare. apply N.compare_refl. Qed.

Lemma ascii_compare_lt_trans a b c :
  Ascii.compare a b = Lt -> Ascii.compare b c = Lt -> Ascii.compare a c = Lt.
Proof.
  unfold Ascii.compare. rewrite !N.compare_lt_iff. apply N.lt_trans.
Qed.

Lemma string_compare_refl s : String.compare s s = Eq.
Proof. induction s as [|c s IH]; simpl; [done|]. by rewrite ascii_compare_refl. Qed.

Lemma string_ltb_irrefl s : String.ltb s s = false.
Proof. unfold String.ltb. by rewrite string_compare_refl. Qed.

Lemma string_compare_lt_trans a : forall b c,
  String.compare a b = Lt -> String.compare b c = Lt -> String.compare a c = Lt.
Proof.
  induction a as [|x a IH]; intros [|y b] [|z c]; simpl; try congruence.
  destruct (Ascii.compare x y) eqn:Hxy; try congruence.
  - apply Ascii.compare_eq_iff in Hxy as ->.
    destruct (Ascii.compare y z); try congruence. apply IH.
  - intros _. destruct (Ascii.compare y z) eqn:Hyz; try congruence.
    + apply Ascii.compare_eq_iff in Hyz as <-. by rewrite Hxy.
    + by rewrite (ascii_compare_lt_trans _ _ _ Hxy Hyz).
Qed.

Lemma py_lt_irrefl x : py_lt x x = false.
Proof. destruct x; simpl; [apply string_ltb_irrefl | reflexivity]. Qed.

Lemma py_lt_trans x y z : py_lt x y = true -> py_lt y z = true -> py_lt x z = true.
Proof.
  destruct x as [a|], y as [b|], z as [c|]; simpl; try congruence.
  unfold String.ltb.
  destruct (String.compare a b) eqn:H1; try congruence.
  destruct (String.compare b c) eqn:H2; try congruence.
  by rewrite (string_compare_lt_trans _ _ _ H1 H2).
Qed.

Lemma py_lt_asym x y : py_lt x y = true -> py_lt y x = false.
Proof.
  intros H. destruct (py_lt y x) eqn:H'; [|done].
  by rewrite <- (py_lt_irrefl x), (py_lt_trans _ _ _ H H').
Qed.

(** Two keys of which neither is smaller are the same key. *)
Lemma py_lt_connex x y : py_lt x y = false -> py_lt y x = false -> x = y.
Proof.
  destruct x as [a|], y as [b|]; simpl; try congruence. unfold String.ltb.
  rewrite (String.compare_antisym b a).
  destruct (String.compare a b) eqn:H; simpl; try congruence.
  apply String.compare_eq_iff in H as ->. done.
Qed.

(** [x <= y] on keys, as [not (y < x)]. *)
Definition py_le (x y : pykey) : Prop := py_lt y x = false.

#[global] Instance py_le_trans : Transitive py_le.
Proof.
  intros x y z Hxy Hyz. unfold py_le in *.
  destruct (py_lt z x) eqn:Hzx; [|done].
  destruct (py_lt y x) eqn:Hyx; [done|].
  destruct (py_lt x y) eqn:Hxy'.
  - by rewrite (py_lt_trans _ _ _ Hzx Hxy') in Hyz.
  - rewrite (py_lt_connex _ _ Hxy' Hyx) in Hzx. congruence.
Qed.

#[global] Instance py_le_antisym : AntiSymm (=) py_le.
Proof. intros x y Hxy Hyx. by apply py_lt_connex. Qed.

Lemma py_lt_le x y : py_lt x y = true -> py_le x y.
Proof. apply py_lt_asym. Qed.

Lemma py_le_lt_trans x y z : py_le x y -> py_lt y z = true -> py_lt x z = true.
Proof.
  intros Hxy Hyz. destruct (py_lt x z) eqn:Hxz; [done|].
  assert (py_le z x) as Hzx by exact Hxz.
  pose proof (transitivity Hzx Hxy) as Hzy. unfold py_le in Hzy. congruence.
Qed.

(** ** [sorted]: ascending, a permutation, stable *)

Section SortedFacts.
Context {A : Type} (key : A -> pykey).

Definition key_le (x y : A) : Prop := py_le (key x) (key y).

Lemma insert_by_perm x l : Permutation (insert_by key x l) (x :: l).
Proof.
  induction l as [|y l IH]; simpl; [done|].
  destruct (py_lt (key y) (key x)); [|done].
  rewrite IH. apply perm_swap.
Qed.

Lemma sorted_perm l : Permutation (sorted key l) l.
Proof.
  induction l as [|x l IH]; simpl; [done|].
  rewrite insert_by_perm. by constructor.
Qed.

Lemma insert_by_sorted x l :
  StronglySorted key_le l -> StronglySorted key_le (insert_by key x l).
Proof.
  induction 1 as [|y l Hl IH Hy]; simpl.
  - repeat constructor.
  - destruct (py_lt (key y) (key x)) eqn:Hyx.
    + constructor; [done|].
      eapply Permutation_Forall; [symmetry; apply insert_by_perm|].
      constructor; [by apply py_lt_le | done].
    + constructor; [by constructor|].
      constructor; [exact Hyx|].
      eapply Forall_impl; [exact Hy|]. intros z Hz.
      unfold key_le in *. by transitivity (key y).
Qed.

Lemma sorted_sorted l : StronglySorted key_le (sorted key l).
Proof.
  induction l as [|x l IH]; simpl; [constructor | by apply insert_by_sorted].
Qed.

(** Stability: the elements with a given key keep their relative order. *)
Lemma insert_by_filter_key x l k :
  List.filter (fun y => bool_decide (key y = k)) (insert_by key x l)
  = List.filter (fun y => bool_decide (key y = k)) (x :: l).
Proof.
  induction l as [|y l IH]; [done|].
  cbn [insert_by]. destruct (py_lt (key y) (key x)) eqn:Hyx; [|done].
  cbn [List.filter] in *. rewrite IH.
  destruct (bool_decide (key x = k)) eqn:Hx, (bool_decide (key y = k)) eqn:Hy;
    try done.
  apply bool_decide_eq_true in Hx, Hy. subst k.
  rewrite Hy, py_lt_irrefl in Hyx. done.
Qed.

Lemma sorted_filter_key l k :
  List.filter (fun y => bool_decide (key y = k)) (sorted key l)
  = List.filter (fun y => bool_decide (key y = k)) l.
Proof.
  induction l as [|x l IH]; [done|].
  cbn [sorted fold_right]. rewrite insert_by_filter_key.
  cbn [List.filter]. fold (sorted key l). by rewrite IH.
Qed.
End SortedFacts.

(** ** [groupby] on a sorted list: one group per key, holding all of its elements *)

Definition py_ltP (x y : pykey) : Prop := py_lt x y = true.

Lemma py_ltP_sorted_NoDup ks : StronglySorted py_ltP ks -> NoDup ks.
Proof.
  induction 1 as [|k ks Hks IH Hk]; constructor; [|done].
  intros Hin. rewrite Forall_forall in Hk. specialize (Hk _ Hin).
  unfold py_ltP in Hk. by rewrite py_lt_irrefl in Hk.
Qed.

Section GroupbyFacts.
Context {A : Type} (key : A -> pykey).

Definition keyed (k : pykey) (y : A) : bool := bool_decide (key y = k).

Lemma groupby_concat l : concat (map snd (groupby key l)) = l.
Proof.
  induction l as [|x l IH]; [done|]. simpl.
  destruct (groupby key l) as [|[k g] gs]; simpl in *.
  - by rewrite <- IH.
  - destruct (decide (key x = k)); simpl; by rewrite <- IH.
Qed.

Lemma groupby_nil_inv l : groupby key l = [] -> l = [].
Proof. intros G. by rewrite <- (groupby_concat l), G. Qed.

Lemma groupby_keys l k :
  In k (map fst (groupby key l)) <-> exists x, In x l /\ key x = k.
Proof.
  induction l as [|x l IH]; simpl.
  - split; [done | by intros (? & [] & _)].
  - destruct (groupby key l) as [|[k' g] gs] eqn:G.
    + apply groupby_nil_inv in G as ->. simpl.
      split; [intros [<-|[]]; eauto | intros (y & [<-|[]] & <-); eauto].
    + assert (In k (map fst (if decide (key x = k') then (key x, x :: g) :: gs
                             else (key x, [x]) :: (k', g) :: gs))
              <-> key x = k \/ In k (map fst ((k', g) :: gs))) as ->.
      { destruct (decide (key x = k')) as [->|]; simpl; tauto. }
      rewrite IH. split.
      * intros [<-|(y & Hy & <-)]; eauto.
      * intros (y & [<-|Hy] & <-); eauto.
Qed.

Lemma groupby_sorted_spec l :
  StronglySorted (key_le key) l ->
  StronglySorted py_ltP (map fst (groupby key l)) /\
  Forall (fun kg => snd kg = List.filter (keyed (fst kg)) l) (groupby key l).
Proof.
  induction 1 as [|x l Hl [IHs IHf] Hx]; [by split; constructor|].
  assert (forall k', In k' (map fst (groupby key l)) -> py_le (key x) k') as Hle.
  { intros k' (y & Hy & <-)%groupby_keys. rewrite Forall_forall in Hx.
    apply Hx. by apply list_elem_of_In. }
  cbn [groupby]. destruct (groupby key l) as [|[k g] gs] eqn:G.
  { apply groupby_nil_inv in G as ->. split; [repeat constructor|].
    constructor; [|constructor]. simpl. unfold keyed.
    by rewrite bool_decide_eq_true_2. }
  cbn [map fst] in IHs. apply StronglySorted_inv in IHs as [IHs Hk].
  apply Forall_cons in IHf as [Hg IHf]. cbn [fst snd] in Hg.
  assert (forall k', In k' (map fst gs) -> py_lt (key x) k' = true) as Hlt.
  { intros k' Hk'. rewrite Forall_forall in Hk.
    apply py_le_lt_trans with k; [apply Hle; by left|].
    apply Hk. by apply list_elem_of_In. }
  assert (Forall (fun kg => snd kg = List.filter (keyed (fst kg)) (x :: l)) gs)
    as Htail.
  { rewrite Forall_forall in IHf |- *. intros [k' g'] Hin.
    cbn [fst snd List.filter]. unfold keyed at 1.
    rewrite bool_decide_eq_false_2; [by apply (IHf (k', g'))|].
    intros E. assert (py_lt (key x) k' = true) as Hkk.
    { apply Hlt. apply list_elem_of_In in Hin.
      by apply (in_map fst) in Hin. }
    by rewrite E, py_lt_irrefl in Hkk. }
  destruct (decide (key x = k)) as [E|NE].
  - split.
    + cbn [map fst]. rewrite E. by constructor.
    + constructor; [|done]. cbn [fst snd List.filter]. unfold keyed at 1.
      rewrite bool_decide_eq_true_2 by done. rewrite E. by f_equal.
  - assert (py_lt (key x) k = true) as Hxk.
    { destruct (py_lt (key x) k) eqn:Hxk; [done|]. exfalso. apply NE.
      apply py_lt_connex; [done|]. apply Hle. by left. }
    split.
    + cbn [map fst]. constructor; [by constructor|].
      constructor; [done|]. rewrite Forall_forall. intros k' Hk'.
      apply Hlt. by apply list_elem_of_In.
    + constructor.
      * cbn [fst snd List.filter]. unfold keyed at 1.
        rewrite bool_decide_eq_true_2 by done. f_equal. symmetry.
        rewrite (List.filter_ext_in _ (fun _ => false));
          [apply List.filter_false|]. intros y Hy. unfold keyed.
        apply bool_decide_eq_false_2. intros E.
        assert (In (key y) (map fst ((k, g) :: gs))) as Hin.
        { rewrite <- G. apply groupby_keys. eauto. }
        rewrite E in Hin. cbn [map fst] in Hin. destruct Hin as [Ek|Hin].
        -- by rewrite Ek, py_lt_irrefl in Hxk.
        -- apply Hlt in Hin. by rewrite py_lt_irrefl in Hin.
      * constructor; [|done]. cbn [fst snd List.filter]. unfold keyed at 1.
        rewrite bool_decide_eq_false_2 by done. done.
Qed.

(** The groups of the sorted list: keys strictly ascending, and under
    each key all the elements of [l] with that key, in the order of [l]. *)
Lemma groupby_sorted l :
  let G := groupby key (sorted key l) in
  StronglySorted py_ltP (map fst G) /\
  Forall (fun kg => snd kg = List.filter (keyed (fst kg)) l) G.
Proof.
  destruct (groupby_sorted_spec _ (sorted_sorted key l)) as [Hs Hf].
  split; [done|]. eapply Forall_impl; [exact Hf|].
  intros [k g]. cbn [fst snd]. intros ->. apply sorted_filter_key.
Qed.

Lemma groupby_sorted_keys l k :
  In k (map fst (groupby key (sorted key l))) <-> exists x, In x l /\ key x = k.
Proof.
  rewrite groupby_keys. split; intros (x & Hx & <-); exists x; split; try done.
  - by rewrite <- !list_elem_of_In, <- (sorted_perm key l) in *.
  - by rewrite <- !list_elem_of_In, (sorted_perm key l) in *.
Qed.
End GroupbyFacts.

(** ** Dictionaries: lookups, stores and enumeration *)

Section DictFacts.
Context {K V : Type} `{EqDecision K}.
Implicit Types (d pre : dict K V) (k : K) (v : V).

Lemma find_notin d k : ~ In k (map fst d) -> PyDict.find d k = None.
Proof.
  induction d as [|[k' v'] d IH]; simpl; [done|]. intros Hn.
  destruct (decide (k = k')) as [->|]; [exfalso; auto | apply IH; auto].
Qed.

Lemma find_app_notin pre d k :
  ~ In k (map fst pre) -> PyDict.find (pre ++ d) k = PyDict.find d k.
Proof.
  induction pre as [|[k' v'] pre IH]; simpl; [done|]. intros Hn.
  destruct (decide (k = k')) as [->|]; [exfalso; auto | apply IH; auto].
Qed.

Lemma find_Some_In d k v : PyDict.find d k = Some v -> In (k, v) d.
Proof.
  induction d as [|[k' v'] d IH]; simpl; [done|].
  destruct (decide (k = k')) as [->|]; [intros [= ->]; by left | auto].
Qed.

Lemma find_In d k v :
  NoDup (map fst d) -> In (k, v) d -> PyDict.find d k = Some v.
Proof.
  induction d as [|[k' v'] d IH]; simpl; [done|].
  intros [Hn Hd]%NoDup_cons [[= -> ->]|Hin].
  - by rewrite decide_True.
  - rewrite decide_False; [by apply IH|].
    intros ->. apply Hn. apply list_elem_of_In. by apply (in_map fst) in Hin.
Qed.

Lemma getitem_last pre k v :
  ~ In k (map fst pre) -> PyDict.getitem (pre ++ [(k, v)]) k = Ok v.
Proof.
  intros Hn. unfold PyDict.getitem. rewrite find_app_notin by done.
  simpl. by rewrite decide_True.
Qed.

Lemma setitem_new d k v :
  ~ In k (map fst d) -> PyDict.setitem d k v = d ++ [(k, v)].
Proof.
  induction d as [|[k' v'] d IH]; simpl; [done|]. intros Hn.
  destruct (decide (k = k')) as [->|]; [exfalso; auto|].
  rewrite IH; auto.
Qed.

Lemma setitem_last pre k v v' :
  ~ In k (map fst pre) ->
  PyDict.setitem (pre ++ [(k, v)]) k v' = pre ++ [(k, v')].
Proof.
  induction pre as [|[k' w] pre IH]; simpl.
  - by rewrite decide_True.
  - intros Hn. destruct (decide (k = k')) as [->|]; [exfalso; auto|].
    rewrite IH; auto.
Qed.

(** A store never changes the number of entries under other keys, and
    leaves exactly one entry under the stored key. *)
Lemma find_setitem d k v k' :
  PyDict.find (PyDict.setitem d k v) k'
  = if decide (k' = k) then Some v else PyDict.find d k'.
Proof.
  induction d as [|[k0 v0] d IH]; simpl.
  - destruct (decide (k' = k)); done.
  - destruct (decide (k = k0)) as [->|Hne]; simpl.
    + destruct (decide (k' = k0)); done.
    + rewrite IH. destruct (decide (k' = k0)) as [->|]; [|done].
      by rewrite decide_False.
Qed.

Lemma setitem_keys_known d k v :
  In k (map fst d) -> map fst (PyDict.setitem d k v) = map fst d.
Proof.
  induction d as [|[k0 v0] d IH]; simpl; [done|]. intros Hin.
  destruct (decide (k = k0)) as [->|Hne]; simpl; [done|].
  f_equal. apply IH. destruct Hin; [congruence | done].
Qed.

Lemma has_key_In d k : PyDict.has_key d k = true <-> In k (map fst d).
Proof.
  unfold PyDict.has_key. split.
  - destruct (PyDict.find d k) as [v|] eqn:E; [|done]. intros _.
    apply find_Some_In in E. by apply (in_map fst) in E.
  - intros Hin. destruct (PyDict.find d k) eqn:E; [done|]. exfalso.
    induction d as [|[k0 v0] d IH]; simpl in *; [done|].
    destruct (decide (k = k0)); [done|]. destruct Hin; [congruence | auto].
Qed.

Context `{DictOrder K}.

(** Every pair of the dict is enumerated once. *)
Lemma items_perm d :
  NoDup (map fst d) -> Permutation (PyDict.items d) d.
Proof.
  intros Hd. unfold PyDict.items, PyDict.keys.
  rewrite (iter_keys_perm (map fst d)).
  assert (forall l, (forall kv, In kv l -> PyDict.find d kv.1 = Some kv.2) ->
            omap (fun k => match PyDict.find d k with
                           | Some v => Some (k, v)
                           | None => None
                           end) (map fst l) = l) as Hl.
  { induction l as [|[k v] l IH]; [done|]. intros Hfind.
    pose proof (Hfind (k, v) (or_introl eq_refl)) as Hkv.
    cbn [map fst snd omap list_omap] in *. rewrite Hkv.
    f_equal. apply IH. intros kv Hin. apply Hfind. by right. }
  rewrite Hl; [done|]. intros [k v] Hkv. by apply find_In.
Qed.

Lemma items_keys d : map fst (PyDict.items d) = PyDict.keys d.
Proof.
  unfold PyDict.items.
  assert (Forall (fun k => In k (map fst d)) (PyDict.keys d)) as Hks.
  { rewrite Forall_forall. intros k Hk. apply list_elem_of_In.
    unfold PyDict.keys in Hk. by rewrite (iter_keys_perm (map fst d)) in Hk. }
  induction Hks as [|k ks Hk _ IH]; [done|].
  apply has_key_In in Hk. unfold PyDict.has_key in Hk.
  cbn [omap list_omap]. destruct (PyDict.find d k); [|done].
  cbn [map fst]. by f_equal.
Qed.
End DictFacts.

(** ** Loops that build a message *)

Lemma string_app_assoc (a b c : string) : (a +:+ b) +:+ c = a +:+ (b +:+ c).
Proof.
  induction a as [|x a IH]; [done|].
  change (String x ((a +:+ b) +:+ c) = String x (a +:+ (b +:+ c))). by rewrite IH.
Qed.

Lemma string_app_nil_r (a : string) : a +:+ "" = a.
Proof.
  induction a as [|x a IH]; [done|].
  change (String x (a +:+ "") = String x a). by rewrite IH.
Qed.

(** The pieces of a message, one after the other. *)
Definition join (l : list string) : string := fold_right String.append "" l.

Lemma for_each_join {X} (l : list X) (f : X -> string) body :
  (forall x, In x l -> forall m, body m x = Ok (m +:+ f x)) ->
  forall m, for_each l body m = Ok (m +:+ join (map f l)).
Proof.
  induction l as [|x l IH]; intros Hb m; simpl.
  - by rewrite string_app_nil_r.
  - rewrite Hb by (by left). simpl.
    rewrite IH by (intros; apply Hb; by right).
    by rewrite string_app_assoc.
Qed.

Lemma for_each_join_sum {X} (l : list X) (f : X -> string) (g : X -> nat) body :
  (forall x, In x l -> forall m n, body (m, n) x = Ok (m +:+ f x, n + g x)) ->
  forall m n,
    for_each l body (m, n) = Ok (m +:+ join (map f l), n + list_sum (map g l)).
Proof.
  induction l as [|x l IH]; intros Hb m n; simpl.
  - by rewrite string_app_nil_r, Nat.add_0_r.
  - rewrite Hb by (by left). simpl.
    rewrite IH by (intros; apply Hb; by right).
    by rewrite string_app_assoc, Nat.add_assoc.
Qed.

(** ** [__group_errors_t_s]: the dict it builds *)

Section Grouping.
Context {A : Type} `{ErrorRecord A}.

(** The records of one target, split by stage. *)
Definition by_stage (v : list A) : dict pykey (list A) :=
  groupby stage (sorted stage v).

(** The nested grouping as a value: targets in the order [groupby]
    yields them, and under each the stages likewise. *)
Definition grouped (self : list A) : dict pykey (dict pykey (list A)) :=
  map (fun kv => (kv.1, by_stage kv.2)) (groupby target (sorted target self)).

Lemma group_inner_loop (pre : dict pykey (dict pykey (list A))) k gs :
  ~ In k (map fst pre) ->
  forall acc,
    NoDup (map fst acc ++ map fst gs) ->
    for_each gs
      (fun error_dict '(s, e) =>
         error_dict_k ← PyDict.getitem error_dict k;
         Ok (PyDict.setitem error_dict k (PyDict.setitem error_dict_k s e)))
      (pre ++ [(k, acc)])
    = Ok (pre ++ [(k, acc ++ gs)]).
Proof.
  intros Hk. induction gs as [|[s e] gs IH]; intros acc Hnd.
  - simpl. by rewrite app_nil_r.
  - cbn [for_each]. rewrite getitem_last by done. cbn [mbind result_bind].
    assert (~ In s (map fst acc)) as Hs.
    { intros Hin. cbn [map fst] in Hnd.
      apply NoDup_app in Hnd as (_ & Hdisj & _).
      apply (Hdisj s); [by apply list_elem_of_In | apply list_elem_of_here]. }
    rewrite (setitem_new acc s e), setitem_last by done.
    rewrite IH.
    + by rewrite <- app_assoc.
    + rewrite map_app. cbn [map fst] in *. by rewrite <- app_assoc.
Qed.

Lemma group_outer_loop G :
  forall pre : dict pykey (dict pykey (list A)),
    NoDup (map fst pre ++ map fst G) ->
    for_each G
      (fun error_dict '(k, v) =>
         let error_dict := PyDict.setitem error_dict k PyDict.empty in
         for_each (groupby stage (sorted stage v))
           (fun error_dict '(s, e) =>
              error_dict_k ← PyDict.getitem error_dict k;
              Ok (PyDict.setitem error_dict k (PyDict.setitem error_dict_k s e)))
           error_dict)
      pre
    = Ok (pre ++ map (fun kv => (kv.1, by_stage kv.2)) G).
Proof.
  induction G as [|[k v] G IH]; intros pre Hnd.
  - simpl. by rewrite app_nil_r.
  - cbn [for_each].
    assert (~ In k (map fst pre)) as Hk.
    { intros Hin. cbn [map fst] in Hnd.
      apply NoDup_app in Hnd as (_ & Hdisj & _).
      apply (Hdisj k); [by apply list_elem_of_In | apply list_elem_of_here]. }
    cbv zeta. rewrite setitem_new by done.
    rewrite (group_inner_loop pre k _ Hk []).
    + cbn [mbind result_bind app]. rewrite IH.
      * by rewrite <- app_assoc.
      * rewrite map_app. cbn [map fst] in *. by rewrite <- app_assoc.
    + cbn [map app]. apply py_ltP_sorted_NoDup.
      apply (groupby_sorted stage v).
Qed.

Theorem group_errors_t_s_eq (self : list A) :
  ErrorCollection.__group_errors_t_s self = Ok (grouped self).
Proof.
  unfold ErrorCollection.__group_errors_t_s. cbv zeta.
  rewrite group_outer_loop; [done|].
  cbn [map app PyDict.empty]. apply py_ltP_sorted_NoDup.
  apply (groupby_sorted target self).
Qed.
End Grouping.

(** ** What the grouping dict holds *)

Definition nonempty {X} (l : list X) : option (list X) :=
  match l with
  | [] => None
  | _ => Some l
  end.

Lemma filter_and {X} (f g : X -> bool) l :
  List.filter g (List.filter f l) = List.filter (fun x => f x && g x) l.
Proof.
  induction l as [|x l IH]; [done|]. cbn [List.filter].
  destruct (f x); cbn [List.filter andb]; [|done]. by rewrite IH.
Qed.

Lemma filter_Permutation {X} (f : X -> bool) l1 l2 :
  Permutation l1 l2 -> Permutation (List.filter f l1) (List.filter f l2).
Proof.
  induction 1 as [|x l1 l2 _ IH|x y l|l1 l2 l3 _ IH1 _ IH2]; cbn [List.filter].
  - done.
  - destruct (f x); [by constructor | done].
  - destruct (f x), (f y); try done. apply perm_swap.
  - by etransitivity.
Qed.

Lemma find_map_values {K V W} `{EqDecision K} (h : K * V -> W) (d : dict K V) k :
  PyDict.find (map (fun kv => (kv.1, h kv)) d) k
  = (fun v => h (k, v)) <$> PyDict.find d k.
Proof.
  induction d as [|[k' v] d IH]; [done|]. cbn [map PyDict.find fst].
  destruct (decide (k = k')) as [->|]; done.
Qed.

Section Buckets.
Context {A : Type}.

(** The groups of the sorted list, read as a dict. *)
Lemma find_groupby_sorted (key : A -> pykey) l k :
  PyDict.find (groupby key (sorted key l)) k
  = nonempty (List.filter (keyed key k) l).
Proof.
  destruct (groupby_sorted key l) as [Hs Hf].
  destruct (List.filter (keyed key k) l) as [|x e] eqn:E.
  - apply find_notin. intros (y & Hy & Hk)%groupby_sorted_keys.
    assert (In y (List.filter (keyed key k) l)) as Hin.
    { apply List.filter_In. split; [done|]. by apply bool_decide_eq_true_2. }
    by rewrite E in Hin.
  - assert (In x (List.filter (keyed key k) l)) as Hx by (rewrite E; by left).
    apply List.filter_In in Hx as [Hx Hk]. apply bool_decide_eq_true in Hk.
    assert (In k (map fst (groupby key (sorted key l)))) as Hin.
    { apply groupby_sorted_keys. eauto. }
    apply in_map_iff in Hin as ([k' g] & Hk' & Hin). cbn [fst] in Hk'. subst k'.
    rewrite Forall_forall in Hf.
    pose proof (Hf _ (proj2 (list_elem_of_In _ _) Hin)) as Hg.
    cbn [fst snd] in Hg. rewrite E in Hg. subst g.
    cbn [nonempty]. apply find_In; [|done].
    by apply py_ltP_sorted_NoDup.
Qed.

Context `{ErrorRecord A}.

(** Membership in the bucket of target [t] and stage [s]. *)
Definition in_bucket (t s : pykey) (x : A) : bool :=
  keyed target t x && keyed stage s x.

(** [error_dict[t][s]], when both keys are there. *)
Definition bucket (d : dict pykey (dict pykey (list A))) (t s : pykey)
  : option (list A) :=
  inner ← PyDict.find d t; PyDict.find inner s.

Lemma find_grouped self t :
  PyDict.find (grouped self) t
  = by_stage <$> nonempty (List.filter (keyed target t) self).
Proof.
  unfold grouped.
  rewrite (find_map_values (fun kv => by_stage kv.2)).
  by rewrite find_groupby_sorted.
Qed.

(** A bucket holds exactly the records with its target and its stage,
    in the order of ingestion; an empty bucket is not stored. *)
Lemma bucket_grouped self t s :
  bucket (grouped self) t s = nonempty (List.filter (in_bucket t s) self).
Proof.
  unfold bucket. rewrite find_grouped. unfold in_bucket.
  rewrite <- filter_and.
  destruct (List.filter (keyed target t) self) as [|x v]; [done|].
  cbn [nonempty fmap option_fmap option_map mbind option_bind].
  unfold by_stage. apply find_groupby_sorted.
Qed.

Lemma grouped_targets_sorted self :
  StronglySorted py_ltP (map fst (grouped self)).
Proof.
  unfold grouped. rewrite map_map. cbn [fst].
  apply (groupby_sorted target self).
Qed.

Lemma grouped_inner self t inner :
  In (t, inner) (grouped self) ->
  inner = by_stage (List.filter (keyed target t) self).
Proof.
  intros Hin. apply find_In in Hin.
  - rewrite find_grouped in Hin.
    destruct (List.filter (keyed target t) self); [done|].
    cbn [nonempty fmap option_fmap option_map] in Hin. congruence.
  - apply py_ltP_sorted_NoDup, grouped_targets_sorted.
Qed.

Lemma grouped_stages_sorted self t inner :
  In (t, inner) (grouped self) -> StronglySorted py_ltP (map fst inner).
Proof.
  intros ->%grouped_inner. unfold by_stage. apply (groupby_sorted stage).
Qed.

Lemma grouped_bucket self t inner s e :
  In (t, inner) (grouped self) -> In (s, e) inner ->
  e = List.filter (in_bucket t s) self /\ e <> [].
Proof.
  intros Ht Hs.
  assert (bucket (grouped self) t s = Some e) as Hb.
  { unfold bucket. rewrite (find_In _ _ _ (py_ltP_sorted_NoDup _
      (grouped_targets_sorted self)) Ht). cbn.
    apply find_In; [|done].
    eapply py_ltP_sorted_NoDup, grouped_stages_sorted, Ht. }
  rewrite bucket_grouped in Hb.
  destruct (List.filter (in_bucket t s) self); [done|].
  cbn in Hb. injection Hb as <-. done.
Qed.
End Buckets.

(** ** The reports of [ErrorCollection] *)

Lemma py_ltP_sorted_le ks : StronglySorted py_ltP ks -> StronglySorted py_le ks.
Proof.
  induction 1 as [|k ks _ IH Hk]; constructor; [done|].
  eapply Forall_impl; [exact Hk|]. intros k'. apply py_lt_le.
Qed.

Section ReportFacts.
Context {A : Type} `{ErrorRecord A} `{DictOrder pykey}.

(** What the report loops visit: the targets in the order of
    [sorted(error_dict.keys())], and under each target the stage buckets
    in the order of [error_dict[k].items()]. *)
Definition report_blocks (self : list A) : list (pykey * list (pykey * list A)) :=
  map (fun kd => (kd.1, PyDict.items kd.2)) (grouped self).

Definition render_item (item : A) : string := tab +:+ tab +:+ str item.

Definition render_bucket (b : pykey * list A) : string :=
  (tab +:+ "Stage: " +:+ fmt_s b.1 +:+ tab +:+ "(" +:+ fmt_nat (length b.2)
       +:+ " error(s))." +:+ nl)
  +:+ join (map render_item b.2).

Definition render_block (kb : pykey * list (pykey * list A)) : string :=
  ("Target: " +:+ fmt_s kb.1 +:+ nl) +:+ join (map render_bucket kb.2).

Definition count_line (b : pykey * list A) : string :=
  tab +:+ fmt_nat (length b.2) +:+ " in " +:+ fmt_s b.1 +:+ nl.

Definition block_total (kb : pykey * list (pykey * list A)) : nat :=
  list_sum (map (fun b => length b.2) kb.2).

Definition count_section (kb : pykey * list (pykey * list A)) : string :=
  "Target: " +:+ fmt_s kb.1 +:+ tab +:+ "(" +:+ fmt_nat (block_total kb)
    +:+ " error(s))" +:+ nl +:+ join (map count_line kb.2).

(** The records in the order in which the full report prints them. *)
Definition emitted (self : list A) : list A :=
  concat (map (fun kb => concat (map snd kb.2)) (report_blocks self)).

Lemma sorted_keys_grouped (self : list A) :
  sorted id (PyDict.keys (grouped self)) = map fst (grouped self).
Proof.
  apply (StronglySorted_unique py_le).
  - apply (sorted_sorted id).
  - apply py_ltP_sorted_le, grouped_targets_sorted.
  - rewrite (sorted_perm id). apply iter_keys_perm.
Qed.

Lemma getitem_grouped (self : list A) k inner :
  In (k, inner) (grouped self) -> PyDict.getitem (grouped self) k = Ok inner.
Proof.
  intros Hin. unfold PyDict.getitem. rewrite (find_In _ k inner); [done| |done].
  apply py_ltP_sorted_NoDup, grouped_targets_sorted.
Qed.

(** A loop over the sorted keys of the dict visits its entries in
    insertion order, since that order is the ascending one. *)
Lemma for_each_grouped {S} (self : list A)
    (body : S -> pykey -> result S)
    (step : S -> pykey * dict pykey (list A) -> result S) s0 :
  (forall s k inner, In (k, inner) (grouped self) ->
     body s k = step s (k, inner)) ->
  for_each (map fst (grouped self)) body s0 = for_each (grouped self) step s0.
Proof.
  generalize (grouped self) as d. intros d Hb. revert s0.
  induction d as [|[k inner] d IH]; intros s0; [done|].
  cbn [map fst for_each]. rewrite (Hb s0 k inner) by (by left).
  destruct (step s0 (k, inner)); [|done]. cbn [mbind result_bind].
  apply IH. intros. apply Hb. by right.
Qed.

Theorem get_error_msg_eq (self : list A) :
  ErrorCollection.get_error_msg self
  = Ok (join (map render_block (report_blocks self))).
Proof.
  unfold ErrorCollection.get_error_msg. cbv zeta.
  rewrite group_errors_t_s_eq. cbn [mbind result_bind].
  rewrite sorted_keys_grouped.
  rewrite (for_each_grouped self _
    (fun m kd => Ok (m +:+ render_block (kd.1, PyDict.items kd.2)))).
  - rewrite (for_each_join _ (fun kd => render_block (kd.1, PyDict.items kd.2)))
      by done.
    unfold report_blocks. rewrite map_map. done.
  - intros m k inner Hin. cbv beta zeta. rewrite (getitem_grouped _ _ _ Hin).
    cbn [mbind result_bind fst snd].
    rewrite (for_each_join _ render_bucket).
    + unfold render_block. cbn [fst snd]. by rewrite string_app_assoc.
    + intros [s e] _ m'. rewrite (for_each_join _ render_item) by done.
      unfold render_bucket. cbn [fst snd]. by rewrite string_app_assoc.
Qed.

Theorem get_error_count_msg_eq (self : list A) :
  ErrorCollection.get_error_count_msg self
  = Ok (fmt_nat (list_sum (map block_total (report_blocks self)))
        +:+ " error(s) occured during this run." +:+ nl +:+ " "
        +:+ join (map count_section (report_blocks self))).
Proof.
  unfold ErrorCollection.get_error_count_msg. cbv zeta.
  rewrite group_errors_t_s_eq. cbn [mbind result_bind].
  rewrite sorted_keys_grouped.
  rewrite (for_each_grouped self _
    (fun '(m, n) kd =>
       Ok (m +:+ count_section (kd.1, PyDict.items kd.2),
           n + block_total (kd.1, PyDict.items kd.2)))).
  - rewrite (for_each_join_sum _
               (fun kd => count_section (kd.1, PyDict.items kd.2))
               (fun kd => block_total (kd.1, PyDict.items kd.2))) by done.
    cbn [mbind result_bind]. unfold report_blocks. rewrite !map_map. done.
  - intros [m n] k inner Hin. cbv beta zeta. rewrite (getitem_grouped _ _ _ Hin).
    cbn [mbind result_bind fst snd].
    rewrite (for_each_join_sum _ count_line (fun b => length b.2)).
    + cbn [mbind result_bind]. unfold count_section, block_total.
      cbn [fst snd]. reflexivity.
    + intros [s e] _ m' n'. reflexivity.
Qed.
End ReportFacts.


(** ** Every record is printed once, under its own target and stage *)

Lemma concat_map_perm {X Y} (F G : X -> list Y) l :
  (forall x, In x l -> Permutation (F x) (G x)) ->
  Permutation (concat (map F l)) (concat (map G l)).
Proof.
  induction l as [|x l IH]; intros HFG; [done|]. cbn [map concat].
  apply Permutation_app; [apply HFG; by left | apply IH; intros; apply HFG; by right].
Qed.

Lemma length_concat_sum {X} (ls : list (list X)) :
  length (concat ls) = list_sum (map (@length X) ls).
Proof.
  induction ls as [|l ls IH]; [done|]. cbn [concat map list_sum].
  by rewrite length_app, IH.
Qed.

Section Coverage.
Context {A : Type} `{ErrorRecord A} `{DictOrder pykey}.

Lemma report_blocks_targets (self : list A) :
  map fst (report_blocks self) = map fst (grouped self).
Proof. unfold report_blocks. by rewrite map_map. Qed.

Lemma report_blocks_inv (self : list A) t buckets :
  In (t, buckets) (report_blocks self) ->
  exists inner, In (t, inner) (grouped self) /\ buckets = PyDict.items inner.
Proof.
  unfold report_blocks. intros ([t' inner] & [= <- <-] & Hin)%in_map_iff.
  by exists inner.
Qed.

Lemma grouped_inner_NoDup (self : list A) t inner :
  In (t, inner) (grouped self) -> NoDup (map fst inner).
Proof. intros Hin. eapply py_ltP_sorted_NoDup, grouped_stages_sorted, Hin. Qed.

Lemma block_records_perm (self : list A) t buckets :
  In (t, buckets) (report_blocks self) ->
  Permutation (concat (map snd buckets)) (List.filter (keyed target t) self).
Proof.
  intros (inner & Hin & ->)%report_blocks_inv.
  rewrite (items_perm inner) by (by eapply grouped_inner_NoDup).
  rewrite (grouped_inner self t inner Hin). unfold by_stage.
  rewrite groupby_concat. apply sorted_perm.
Qed.

Theorem emitted_perm (self : list A) : Permutation (emitted self) self.
Proof.
  unfold emitted.
  rewrite (concat_map_perm _ (fun kb => List.filter (keyed target kb.1) self)).
  - unfold report_blocks, grouped. rewrite !map_map. cbn [fst snd].
    destruct (groupby_sorted target self) as [_ Hf].
    transitivity (concat (map snd (groupby target (sorted target self)))).
    + apply concat_map_perm. intros [k g] Hin. cbn [fst snd].
      rewrite Forall_forall in Hf.
      pose proof (Hf (k, g) (proj2 (list_elem_of_In _ _) Hin)) as E.
      cbn [fst snd] in E. by rewrite <- E.
    + rewrite groupby_concat. apply sorted_perm.
  - intros [t buckets] Hin. by apply block_records_perm.
Qed.

Lemma block_total_eq (self : list A) t buckets :
  In (t, buckets) (report_blocks self) ->
  block_total (t, buckets) = length (List.filter (keyed target t) self).
Proof.
  intros Hin. unfold block_total. cbn [snd].
  rewrite <- (Permutation_length (block_records_perm self t buckets Hin)).
  by rewrite length_concat_sum, map_map.
Qed.

Lemma grand_total_eq (self : list A) :
  list_sum (map block_total (report_blocks self)) = length self.
Proof.
  rewrite <- (Permutation_length (emitted_perm self)). unfold emitted.
  rewrite length_concat_sum, map_map. f_equal. apply map_ext.
  intros [t buckets]. unfold block_total. cbn [snd].
  by rewrite length_concat_sum, map_map.
Qed.

(** The buckets of a block, with their place in the ascending stage list. *)
Lemma block_buckets (self : list A) t buckets :
  In (t, buckets) (report_blocks self) ->
  exists inner,
    In (t, inner) (grouped self) /\
    StronglySorted py_ltP (map fst inner) /\
    map fst buckets = iter_keys (map fst inner) /\
    Permutation buckets inner /\
    Forall (fun b => b.2 = List.filter (in_bucket t b.1) self /\ b.2 <> []) buckets.
Proof.
  intros (inner & Hin & ->)%report_blocks_inv. exists inner.
  pose proof (grouped_inner_NoDup self t inner Hin) as Hnd.
  split; [done|]. split; [by eapply grouped_stages_sorted|].
  split; [apply items_keys|]. split; [by apply items_perm|].
  rewrite (items_perm inner Hnd). rewrite Forall_forall. intros [s e] Hse.
  cbn [fst snd]. eapply grouped_bucket; [done|]. by apply list_elem_of_In.
Qed.
End Coverage.


(** ** The CPython 2.7 table enumerates every key once *)

Section CPythonFacts.
Context {K : Type} (hash : K -> Z).

Lemma insert_slot_perm (e : Z * K) t :
  Permutation (CPython27.insert_slot e t) (e :: t).
Proof.
  induction t as [|e' t IH]; cbn [CPython27.insert_slot]; [done|].
  destruct (e'.1 <? e.1)%Z; [|done]. rewrite IH. apply perm_swap.
Qed.

Lemma by_slot_perm (t : list (Z * K)) : Permutation (CPython27.by_slot t) t.
Proof.
  induction t as [|e t IH]; [done|]. cbn [CPython27.by_slot fold_right].
  rewrite insert_slot_perm. by constructor.
Qed.

Lemma insert_clean_keys mask (t : list (Z * K)) k :
  map snd (CPython27.insert_clean hash mask t k) = map snd t ++ [k].
Proof. unfold CPython27.insert_clean. by rewrite map_app. Qed.

Lemma refill_keys mask ks : forall t : list (Z * K),
  map snd (fold_left (CPython27.insert_clean hash mask) ks t) = map snd t ++ ks.
Proof.
  induction ks as [|k ks IH]; intros t; cbn [fold_left].
  - by rewrite app_nil_r.
  - by rewrite IH, insert_clean_keys, <- app_assoc.
Qed.

Lemma insertdict_keys (mt : Z * list (Z * K)) k :
  Permutation (map snd (CPython27.insertdict hash mt k).2) (map snd mt.2 ++ [k]).
Proof.
  destruct mt as [mask t]. unfold CPython27.insertdict.
  destruct (_ >=? _)%Z; cbn [snd].
  - unfold CPython27.dictresize. cbn [snd]. rewrite refill_keys. cbn [map app].
    rewrite (by_slot_perm _). by rewrite insert_clean_keys.
  - by rewrite insert_clean_keys.
Qed.

Lemma fill_keys l : forall mt : Z * list (Z * K),
  Permutation (map snd (fold_left (CPython27.insertdict hash) l mt).2)
              (map snd mt.2 ++ l).
Proof.
  induction l as [|k l IH]; intros mt; cbn [fold_left].
  - by rewrite app_nil_r.
  - rewrite IH, insertdict_keys. by rewrite <- app_assoc.
Qed.

Lemma enumerate_perm l : Permutation (CPython27.enumerate hash l) l.
Proof.
  unfold CPython27.enumerate. rewrite (by_slot_perm _). by rewrite fill_keys.
Qed.
End CPythonFacts.

(** The dicts of CPython 2.7 as instances of [DictOrder]. *)
Definition cpython27_str : DictOrder string :=
  {| iter_keys := CPython27.enumerate CPython27.string_hash;
     iter_keys_perm := enumerate_perm CPython27.string_hash |}.

Definition cpython27_key (none_hash : Z) : DictOrder pykey :=
  {| iter_keys := CPython27.enumerate (CPython27.key_hash none_hash);
     iter_keys_perm := enumerate_perm (CPython27.key_hash none_hash) |}.

Example cpython27_abc :
  @iter_keys _ cpython27_str ["a"; "b"; "c"] = ["a"; "c"; "b"].
Proof. vm_compute. reflexivity. Qed.


(** ** The ingestion methods *)

(** A run of calls of one ingestion method, each on the state the
    previous one left. *)
Definition attach_validation_errors
    (calls : list (string * string * gmap string string * option string))
    (h : ErrorHandler.t) : result ErrorHandler.t :=
  for_each calls
    (fun h '(stage, param, data_dict, notice) =>
       ErrorHandler.attach_validation_error h stage param data_dict notice)
    h.

Definition attach_db_errors (texts : list string) (h : ErrorHandler.t)
  : result ErrorHandler.t :=
  for_each texts ErrorHandler.attach_db_error h.

(** The record [attach_validation_error] builds from its arguments. *)
Definition validation_record (stage param : string)
    (data_dict : gmap string string) (notice : option string) : ValidationError.t :=
  ValidationError.__init__
    (if decide (stage = "protocol") then Some "Protocol"
     else data_dict !! "protein_target_id")
    stage (data_dict !! (stage +:+ "_id")) param (data_dict !! param) notice.

Lemma probe_data_dict (d : gmap string string) k :
  (if DataDict.has_key d k then v ← DataDict.getitem d k; Ok (Some v)
   else Ok None) = Ok (d !! k).
Proof.
  unfold DataDict.has_key, DataDict.getitem.
  destruct (d !! k) as [v|] eqn:E.
  - rewrite bool_decide_eq_true_2 by eauto. done.
  - rewrite bool_decide_eq_false_2; [done|]. by intros [? [=]].
Qed.

Lemma attach_validation_error_eq h stage param data_dict notice :
  ErrorHandler.attach_validation_error h stage param data_dict notice
  = Ok (ErrorHandler.Build
          (ErrorHandler._validation_error_collection h
             ++ [validation_record stage param data_dict notice])
          (ErrorHandler._db_error_collection h)
          (ErrorHandler._consistency_error_collection h)
          (ErrorHandler._r_counter h) (ErrorHandler._logger h)).
Proof.
  unfold ErrorHandler.attach_validation_error. cbv zeta.
  rewrite !probe_data_dict. reflexivity.
Qed.

Lemma increment_eq (self : RecordCounter.t) name :
  RecordCounter.increment self name
  = Ok (PyDict.setitem self name
          (match PyDict.find self name with
           | Some n => (n + 1)%Z
           | None => 1%Z
           end)).
Proof.
  unfold RecordCounter.increment, PyDict.has_key, PyDict.getitem.
  by destruct (PyDict.find self name).
Qed.

Lemma attach_db_error_eq h text :
  ErrorHandler.attach_db_error h text
  = Ok (ErrorHandler.Build
          (ErrorHandler._validation_error_collection h)
          (PyDict.setitem (ErrorHandler._db_error_collection h) text
             (match PyDict.find (ErrorHandler._db_error_collection h) text with
              | Some n => (n + 1)%Z
              | None => 1%Z
              end))
          (ErrorHandler._consistency_error_collection h)
          (ErrorHandler._r_counter h) (ErrorHandler._logger h ++ [text])).
Proof.
  unfold ErrorHandler.attach_db_error. cbv zeta.
  cbn [ErrorHandler.info ErrorHandler._db_error_collection].
  rewrite increment_eq. reflexivity.
Qed.

(** After the guard of a counter method the stage has a counter dict:
    the one it had, or a new empty one. *)
Lemma getitem_ensure_stage (r : dict string RecordCounter.t) stage :
  PyDict.getitem (ErrorHandler.ensure_stage r stage) stage
  = Ok (default PyDict.empty (PyDict.find r stage)).
Proof.
  unfold ErrorHandler.ensure_stage, PyDict.has_key, PyDict.getitem.
  destruct (PyDict.find r stage) as [rc|] eqn:E; cbn [negb].
  - by rewrite E.
  - rewrite find_setitem. by rewrite decide_True.
Qed.

Lemma attach_validation_errors_eq calls : forall h,
  attach_validation_errors calls h
  = Ok (ErrorHandler.Build
          (ErrorHandler._validation_error_collection h
             ++ map (fun '(stage, param, data_dict, notice) =>
                       validation_record stage param data_dict notice) calls)
          (ErrorHandler._db_error_collection h)
          (ErrorHandler._consistency_error_collection h)
          (ErrorHandler._r_counter h) (ErrorHandler._logger h)).
Proof.
  unfold attach_validation_errors.
  induction calls as [|[[[stage param] data_dict] notice] calls IH]; intros h.
  - cbn [for_each map]. rewrite app_nil_r. by destruct h.
  - cbn [for_each]. rewrite attach_validation_error_eq. cbn [mbind result_bind].
    rewrite IH. cbn [ErrorHandler._validation_error_collection
      ErrorHandler._db_error_collection ErrorHandler._consistency_error_collection
      ErrorHandler._r_counter ErrorHandler._logger map].
    by rewrite <- app_assoc.
Qed.


(** ** The run of [main()]

    The calls of [main()] in the source, with the fields of each
    [data_dict] that the handler looks at, and the first and the last
    report it prints, on CPython 2.7. *)

Definition main_run : result ErrorHandler.t :=
  let clone_1 : gmap string string :=
    {[ "protocol_id" := "uva_cloning_1"; "protein_target_id" := "490006";
       "clone_id" := "V29" ]} in
  let clone_2 : gmap string string :=
    {[ "protocol_id" := "uva_cloning_1"; "protein_target_id" := "490007";
       "clone_id" := "V29" ]} in
  let expression : gmap string string :=
    {[ "protocol_id" := "uva_cloning_12"; "protein_target_id" := "490007";
       "expression_id" := "V13" ]} in
  let a := ErrorHandler.__init__ in
  a ← ErrorHandler.attach_validation_error a "clone" "protocol_id" clone_1
         (Some "Protocol is gone....");
  a ← ErrorHandler.attach_validation_error a "clone" "protocol_id" clone_2
         (Some "Protocol is gone");
  a ← ErrorHandler.attach_validation_error a "expression" "protocol_id" expression
         (Some "Protocol is missing");
  a ← ErrorHandler.attach_validation_error a "expression" "protocol_id" expression
         (Some "Protocol is gone");
  a ← ErrorHandler.attach_db_error a
         "This is somekind of stacktrace with query and caught database exception content.";
  a ← ErrorHandler.set_lab_db_count a "clone" 231;
  a ← ErrorHandler.set_center_db_count a "expression" 232;
  a ← ErrorHandler.increment_inserted a "clone";
  a ← ErrorHandler.increment_inserted a "clone";
  a ← ErrorHandler.increment_updated a "clone";
  ErrorHandler.increment_updated a "expression".

Example main_validation_error_msg :
  (a ← main_run; @ErrorHandler.get_validation_error_msg (cpython27_key 0) a)
  = Ok ("Target: 490006" +:+ nl
        +:+ tab +:+ "Stage: clone" +:+ tab +:+ "(1 error(s))." +:+ nl
        +:+ tab +:+ tab +:+ "Error: Protocol is gone...., Value of protocol_id = "
        +:+ "'uva_cloning_1' for clone_id = 'V29'" +:+ nl
        +:+ "Target: 490007" +:+ nl
        +:+ tab +:+ "Stage: clone" +:+ tab +:+ "(1 error(s))." +:+ nl
        +:+ tab +:+ tab +:+ "Error: Protocol is gone, Value of protocol_id = "
        +:+ "'uva_cloning_1' for clone_id = 'V29'" +:+ nl
        +:+ tab +:+ "Stage: expression" +:+ tab +:+ "(2 error(s))." +:+ nl
        +:+ tab +:+ tab +:+ "Error: Protocol is missing, Value of protocol_id = "
        +:+ "'uva_cloning_12' for expression_id = 'V13'" +:+ nl
        +:+ tab +:+ tab +:+ "Error: Protocol is gone, Value of protocol_id = "
        +:+ "'uva_cloning_12' for expression_id = 'V13'" +:+ nl).
Proof. vm_compute. reflexivity. Qed.

Example main_count_values_msg :
  (a ← main_run; Ok (@ErrorHandler.get_count_values_msg cpython27_str a))
  = Ok ("clone:" +:+ nl
        +:+ tab +:+ "lab_db records: 231" +:+ nl
        +:+ tab +:+ "updated records: 1" +:+ nl
        +:+ tab +:+ "inserted records: 2" +:+ nl
        +:+ "expression:" +:+ nl
        +:+ tab +:+ "center_db records: 232" +:+ nl
        +:+ tab +:+ "updated records: 1" +:+ nl).
Proof. vm_compute. reflexivity. Qed.

(** ** Buckets of the report *)

Lemma in_bucket_fields {A} `{ErrorRecord A} t s (r : A) :
  in_bucket t s r = true -> target r = t /\ stage r = s.
Proof.
  unfold in_bucket, keyed. intros [Ht Hs]%andb_true_iff.
  by apply bool_decide_eq_true in Ht, Hs.
Qed.

(** The buckets the report visits are keyed without repetition, and each
    holds records of its own target and stage only. *)
Definition well_bucketed {A} `{ErrorRecord A}
    (blocks : list (pykey * list (pykey * list A))) : Prop :=
  NoDup (map fst blocks) /\
  Forall (fun kb =>
            NoDup (map fst kb.2) /\
            Forall (fun b => Forall (fun r => target r = kb.1 /\ stage r = b.1) b.2)
                   kb.2)
         blocks.

Lemma report_blocks_well_bucketed {A} `{ErrorRecord A} `{DictOrder pykey}
    (self : list A) :
  well_bucketed (report_blocks self).
Proof.
  split.
  - rewrite report_blocks_targets.
    apply py_ltP_sorted_NoDup, grouped_targets_sorted.
  - rewrite Forall_forall. intros [t buckets] Hin%list_elem_of_In.
    destruct (block_buckets self t buckets Hin)
      as (inner & Hinner & Hs & Hk & _ & Hb).
    cbn [fst snd]. split.
    + rewrite Hk, (iter_keys_perm (map fst inner)).
      by apply py_ltP_sorted_NoDup.
    + eapply Forall_impl; [exact Hb|]. intros [s e] [He _]. cbn [fst snd] in *.
      rewrite He, Forall_forall. intros r Hr%list_elem_of_In.
      apply List.filter_In in Hr as [_ Hr]. by apply in_bucket_fields.
Qed.

(** ** Database errors: one entry per distinct text *)

Lemma setitem_keys {V} (d : dict string V) k v :
  NoDup (map fst d) ->
  NoDup (map fst (PyDict.setitem d k v)) /\
  forall t, t ∈ map fst (PyDict.setitem d k v) <-> t = k \/ t ∈ map fst d.
Proof.
  intros Hnd. destruct (decide (k ∈ map fst d)) as [Hin|Hnin].
  - rewrite setitem_keys_known by (by apply list_elem_of_In). split; [done|].
    intros t. split; [auto|]. by intros [->|].
  - rewrite list_elem_of_In in Hnin. rewrite setitem_new by done.
    rewrite map_app. cbn [map fst]. split.
    + apply NoDup_app. split; [done|]. split; [|apply NoDup_singleton].
      intros t Ht ->%list_elem_of_singleton. by apply Hnin, list_elem_of_In.
    + intros t. rewrite elem_of_app, list_elem_of_singleton. tauto.
Qed.

Lemma attach_db_errors_keys texts : forall h,
  NoDup (map fst (ErrorHandler._db_error_collection h)) ->
  exists h',
    attach_db_errors texts h = Ok h' /\
    NoDup (map fst (ErrorHandler._db_error_collection h')) /\
    forall t, t ∈ map fst (ErrorHandler._db_error_collection h')
              <-> t ∈ map fst (ErrorHandler._db_error_collection h) \/ t ∈ texts.
Proof.
  unfold attach_db_errors.
  induction texts as [|x texts IH]; intros h Hnd.
  - exists h. split; [done|]. split; [done|]. intros t.
    rewrite elem_of_nil. tauto.
  - cbn [for_each]. rewrite attach_db_error_eq. cbn [mbind result_bind].
    match goal with
    | |- context [for_each texts _ ?h1] => destruct (IH h1) as (h' & -> & Hnd' & Hk)
    end.
    { cbn [ErrorHandler._db_error_collection]. by apply setitem_keys. }
    exists h'. split; [done|]. split; [done|]. intros t. rewrite Hk.
    cbn [ErrorHandler._db_error_collection].
    rewrite (proj2 (setitem_keys _ x _ Hnd) t), elem_of_cons. tauto.
Qed.

Lemma attach_db_errors_same x n : forall h k,
  ErrorHandler._db_error_collection h = [(x, k)] ->
  exists h',
    attach_db_errors (replicate n x) h = Ok h' /\
    ErrorHandler._db_error_collection h' = [(x, (k + Z.of_nat n)%Z)].
Proof.
  unfold attach_db_errors.
  induction n as [|n IH]; intros h k Hdb.
  - exists h. split; [done|]. by rewrite Z.add_0_r.
  - cbn [replicate for_each]. rewrite attach_db_error_eq, Hdb.
    cbn [mbind result_bind PyDict.find PyDict.setitem]. rewrite !decide_True by done.
    match goal with
    | |- context [for_each _ _ ?h1] =>
        destruct (IH h1 (k + 1)%Z) as (h' & -> & Hdb'); [done|]
    end.
    exists h'. split; [done|]. rewrite Hdb'. do 2 f_equal. lia.
Qed.

(** ** The counter methods *)

Lemma increment_inserted_eq h stage :
  let r := ErrorHandler.ensure_stage (ErrorHandler._r_counter h) stage in
  let rc := default PyDict.empty (PyDict.find (ErrorHandler._r_counter h) stage) in
  ErrorHandler.increment_inserted h stage
  = Ok (ErrorHandler.with_r_counter h
          (PyDict.setitem r stage
             (PyDict.setitem rc "inserted"
                (match PyDict.find rc "inserted" with
                 | Some n => (n + 1)%Z
                 | None => 1%Z
                 end)))).
Proof.
  cbv zeta. unfold ErrorHandler.increment_inserted. cbv zeta.
  rewrite getitem_ensure_stage. cbn [mbind result_bind].
  rewrite increment_eq. reflexivity.
Qed.

Lemma increment_updated_eq h stage :
  let r := ErrorHandler.ensure_stage (ErrorHandler._r_counter h) stage in
  let rc := default PyDict.empty (PyDict.find (ErrorHandler._r_counter h) stage) in
  ErrorHandler.increment_updated h stage
  = Ok (ErrorHandler.with_r_counter h
          (PyDict.setitem r stage
             (PyDict.setitem rc "updated"
                (match PyDict.find rc "updated" with
                 | Some n => (n + 1)%Z
                 | None => 1%Z
                 end)))).
Proof.
  cbv zeta. unfold ErrorHandler.increment_updated. cbv zeta.
  rewrite getitem_ensure_stage. cbn [mbind result_bind].
  rewrite increment_eq. reflexivity.
Qed.

Lemma set_lab_db_count_eq h stage value :
  let r := ErrorHandler.ensure_stage (ErrorHandler._r_counter h) stage in
  let rc := default PyDict.empty (PyDict.find (ErrorHandler._r_counter h) stage) in
  ErrorHandler.set_lab_db_count h stage value
  = Ok (ErrorHandler.with_r_counter h
          (PyDict.setitem r stage (PyDict.setitem rc "lab_db" value))).
Proof.
  cbv zeta. unfold ErrorHandler.set_lab_db_count. cbv zeta.
  rewrite getitem_ensure_stage. reflexivity.
Qed.

Lemma set_center_db_count_eq h stage value :
  let r := ErrorHandler.ensure_stage (ErrorHandler._r_counter h) stage in
  let rc := default PyDict.empty (PyDict.find (ErrorHandler._r_counter h) stage) in
  ErrorHandler.set_center_db_count h stage value
  = Ok (ErrorHandler.with_r_counter h
          (PyDict.setitem r stage (PyDict.setitem rc "center_db" value))).
Proof.
  cbv zeta. unfold ErrorHandler.set_center_db_count. cbv zeta.
  rewrite getitem_ensure_stage. reflexivity.
Qed.

(** * The claims *)

(** C1: after any run of [attach_validation_error] calls the full
    validation report is the concatenation of its target blocks and stage
    buckets; the records it prints are the appended records, each one once
    (a permutation of the collection); no (target, stage) header occurs
    twice, and every record stands under the header of its own target and
    stage. *)
Theorem C1_full_report_covers_every_record `{DictOrder pykey}
    (calls : list (string * string * gmap string string * option string))
    (h0 : ErrorHandler.t) :
  exists h,
    attach_validation_errors calls h0 = Ok h /\
    let c := ErrorHandler._validation_error_collection h in
    length c = length (ErrorHandler._validation_error_collection h0) + length calls /\
    ErrorHandler.get_validation_error_msg h
      = Ok (join (map render_block (report_blocks c))) /\
    Permutation (emitted c) c /\
    well_bucketed (report_blocks c).
Proof.
  rewrite attach_validation_errors_eq. eexists. split; [reflexivity|].
  cbn [ErrorHandler._validation_error_collection].
  split; [by rewrite length_app, length_map|].
  split; [apply get_error_msg_eq|].
  split; [apply emitted_perm | apply report_blocks_well_bucketed].
Qed.

(** The target of the appended record as the claim words it: the explicit
    target field first, the literal only as a fallback. *)
Definition claimed_target (stage : string) (data_dict : gmap string string)
  : option string :=
  match data_dict !! "protein_target_id" with
  | Some v => Some v
  | None => if decide (stage = "protocol") then Some "Protocol" else None
  end.

(** C2, as stated, fails: for stage ["protocol"] the literal replaces an
    explicit target field that is present. *)
Lemma C2_counterexample :
  let data_dict : gmap string string :=
    {[ "protein_target_id" := "490006"; "protocol_id" := "uva_cloning_1" ]} in
  exists h r,
    ErrorHandler.attach_validation_error ErrorHandler.__init__
      "protocol" "protocol_id" data_dict None = Ok h /\
    ErrorHandler._validation_error_collection h = [r] /\
    ValidationError.target r = Some "Protocol" /\
    claimed_target "protocol" data_dict = Some "490006" /\
    ValidationError.target r <> claimed_target "protocol" data_dict.
Proof.
  cbv zeta. rewrite attach_validation_error_eq. eexists _, _.
  split; [reflexivity|]. split; [reflexivity|].
  split; [vm_compute; reflexivity|]. split; [vm_compute; reflexivity|].
  vm_compute. discriminate.
Qed.

(** C2, amended: the appended record has target ["Protocol"] whenever the
    stage is ["protocol"], else the [protein_target_id] field if present,
    else none; suffix is the ["{stage}_id"] field if present; value is the
    [parameter] field if present.  For stage ["clone"] and a record with
    [protocol_id] and [protein_target_id] but no [clone_id], the record has
    target ["490006"], no suffix and value ["uva_cloning_1"]. *)
Theorem C2_validation_record_fields (h : ErrorHandler.t) (stage param : string)
    (data_dict : gmap string string) (notice : option string) :
  (exists h' r,
     ErrorHandler.attach_validation_error h stage param data_dict notice = Ok h' /\
     ErrorHandler._validation_error_collection h'
       = ErrorHandler._validation_error_collection h ++ [r] /\
     ValidationError.target r
       = (if decide (stage = "protocol") then Some "Protocol"
          else data_dict !! "protein_target_id") /\
     ValidationError.stage r = stage /\
     ValidationError.suffix r = data_dict !! (stage +:+ "_id") /\
     ValidationError.parameter r = param /\
     ValidationError.value r = data_dict !! param /\
     ValidationError.notice r = notice) /\
  (exists h',
     ErrorHandler.attach_validation_error h "clone" "protocol_id"
       {[ "protocol_id" := "uva_cloning_1"; "protein_target_id" := "490006" ]}
       notice = Ok h' /\
     ErrorHandler._validation_error_collection h'
       = ErrorHandler._validation_error_collection h
           ++ [ValidationError.__init__ (Some "490006") "clone" None "protocol_id"
                 (Some "uva_cloning_1") notice]).
Proof.
  split.
  - rewrite attach_validation_error_eq. eexists _, _.
    split; [reflexivity|]. cbn. repeat split.
  - rewrite attach_validation_error_eq. eexists. split; [reflexivity|].
    cbn [ErrorHandler._validation_error_collection]. do 2 f_equal.
Qed.

(** C3, as stated, fails: the grand-total line is the first line of the
    text, before the per-target sections, not the last.  One validation
    error of target ["490006"] in stage ["clone"], on CPython 2.7. *)
Lemma C3_counterexample :
  let total_line := "1 error(s) occured during this run." +:+ nl in
  let sections :=
    "Target: 490006" +:+ tab +:+ "(1 error(s))" +:+ nl
      +:+ tab +:+ "1 in clone" +:+ nl in
  exists h text,
    ErrorHandler.attach_validation_error ErrorHandler.__init__ "clone" "protocol_id"
      {[ "protocol_id" := "uva_cloning_1"; "protein_target_id" := "490006" ]}
      (Some "Protocol is gone") = Ok h /\
    @ErrorHandler.get_validation_errors_statistics_msg (cpython27_key 0) h = Ok text /\
    text = total_line +:+ " " +:+ sections /\
    text <> sections +:+ total_line.
Proof.
  cbv zeta. eexists _, _. split; [vm_compute; reflexivity|].
  split; [vm_compute; reflexivity|]. split; [vm_compute; reflexivity|].
  vm_compute. discriminate.
Qed.

(** C3, amended: [get_error_count_msg] starts with the grand total, which
    is the number of records in the collection, and continues with one
    section per target in ascending order: the target name, the number of
    records of that target, and a line "{count} in {stage}" for each stage
    bucket of the target, where the count is the number of records of that
    target and stage. *)
Theorem C3_count_by_target {A} `{ErrorRecord A} `{DictOrder pykey} (self : list A) :
  let blocks := report_blocks self in
  ErrorCollection.get_error_count_msg self
  = Ok (fmt_nat (length self) +:+ " error(s) occured during this run." +:+ nl
        +:+ " " +:+ join (map count_section blocks)) /\
  StronglySorted py_ltP (map fst blocks) /\
  Forall (fun kb =>
            block_total kb = length (List.filter (keyed target kb.1) self) /\
            NoDup (map fst kb.2) /\
            Forall (fun b => b.2 = List.filter (in_bucket kb.1 b.1) self /\ b.2 <> [])
                   kb.2)
         blocks.
Proof.
  cbv zeta. split; [|split].
  - rewrite get_error_count_msg_eq. by rewrite grand_total_eq.
  - rewrite report_blocks_targets. apply grouped_targets_sorted.
  - rewrite Forall_forall. intros [t buckets] Hin%list_elem_of_In.
    cbn [fst snd]. split; [by apply block_total_eq|].
    destruct (block_buckets self t buckets Hin)
      as (inner & Hinner & Hs & Hk & _ & Hb).
    split; [|done].
    rewrite Hk, (iter_keys_perm (map fst inner)). by apply py_ltP_sorted_NoDup.
Qed.

(** C4, as stated, fails: the full report prints the stage buckets of a
    target in the order in which the inner dict enumerates them, which need
    not be ascending.  Two consistency errors of target ["490007"], in
    stages ["expression"] and ["protocol"], on CPython 2.7: the bucket of
    ["protocol"] is printed first. *)
Lemma C4_counterexample :
  exists h1 h2 text,
    ErrorHandler.attach_consistency_error ErrorHandler.__init__
      (Some "490007") (Some "expression") (Some "V13") = Ok h1 /\
    ErrorHandler.attach_consistency_error h1
      (Some "490007") (Some "protocol") (Some "uva_cloning_1") = Ok h2 /\
    @ErrorHandler.get_consistency_error_msg (cpython27_key 0) h2 = Ok text /\
    text = "Target: 490007" +:+ nl
             +:+ tab +:+ "Stage: protocol" +:+ tab +:+ "(1 error(s))." +:+ nl
             +:+ tab +:+ tab +:+ "Missing suffix: uva_cloning_1" +:+ nl
             +:+ tab +:+ "Stage: expression" +:+ tab +:+ "(1 error(s))." +:+ nl
             +:+ tab +:+ tab +:+ "Missing suffix: V13" +:+ nl /\
    map (fun kb => map fst kb.2)
        (@report_blocks _ _ (cpython27_key 0)
           (ErrorHandler._consistency_error_collection h2))
      = [[Some "protocol"; Some "expression"]] /\
    ~ StronglySorted py_ltP [Some "protocol"; Some "expression"].
Proof.
  eexists _, _, _. split; [reflexivity|]. split; [reflexivity|].
  split; [vm_compute; reflexivity|]. split; [vm_compute; reflexivity|].
  split; [vm_compute; reflexivity|].
  intros [_ Hlt]%StronglySorted_inv. apply Forall_inv in Hlt. discriminate Hlt.
Qed.

(** C4, amended: [__group_errors_t_s] returns normally; in the dict it
    builds the targets are inserted in strictly ascending order, an absent
    target first, and under each target the stages likewise; each bucket
    holds the records of its target and stage in ingestion order, so equal
    collections give equal dicts.  The full report prints the targets in
    ascending order and, under each target, every stage bucket once, in the
    order in which the inner dict enumerates its keys. *)
Theorem C4_grouping_order {A} `{ErrorRecord A} `{DictOrder pykey} (self : list A) :
  exists error_dict,
    ErrorCollection.__group_errors_t_s self = Ok error_dict /\
    StronglySorted py_ltP (map fst error_dict) /\
    Forall (fun kd =>
              StronglySorted py_ltP (map fst kd.2) /\
              Forall (fun b => b.2 = List.filter (in_bucket kd.1 b.1) self) kd.2)
           error_dict /\
    (forall s, py_ltP None (Some s)) /\
    ErrorCollection.get_error_msg self
      = Ok (join (map render_block (report_blocks self))) /\
    Forall2 (fun kb kd =>
               kb.1 = kd.1 /\
               map fst kb.2 = iter_keys (map fst kd.2) /\
               Permutation kb.2 kd.2)
            (report_blocks self) error_dict.
Proof.
  exists (grouped self). split; [apply group_errors_t_s_eq|].
  split; [apply grouped_targets_sorted|]. split; [|split; [done|split]].
  - rewrite Forall_forall. intros [t inner] Hin%list_elem_of_In. cbn [fst snd].
    split; [by eapply grouped_stages_sorted|].
    rewrite Forall_forall. intros [s e] Hse%list_elem_of_In. cbn [fst snd].
    by eapply grouped_bucket.
  - apply get_error_msg_eq.
  - unfold report_blocks. apply Forall2_fmap_l, Forall_Forall2_diag.
    rewrite Forall_forall. intros [t inner] Hin%list_elem_of_In. cbn [fst snd].
    split; [done|]. split; [apply items_keys|].
    apply items_perm. by eapply grouped_inner_NoDup.
Qed.

(** C5, as stated, fails on the text of the summary: after five
    recordings of ["X"] the count is 1, but the sentence is spelt
    "occured" and ends with a newline. *)
Lemma C5_counterexample :
  exists h,
    attach_db_errors ["X"; "X"; "X"; "X"; "X"] ErrorHandler.__init__ = Ok h /\
    ErrorHandler.get_database_errors_statistics_msg h
      = "1 error(s) occured during run." +:+ nl /\
    ErrorHandler.get_database_errors_statistics_msg h
      <> "1 error(s) occurred during run.".
Proof.
  eexists. split; [vm_compute; reflexivity|]. split; [vm_compute; reflexivity|].
  vm_compute. discriminate.
Qed.

(** C5, amended: after any run of [attach_db_error] calls on a new handler
    the count summary reports the number of distinct texts, in the sentence
    "{n} error(s) occured during run." followed by a newline; a text
    recorded [n >= 1] times is one entry holding [n], so the summary is
    "1 error(s) occured during run." and a newline. *)
Theorem C5_distinct_signature_count :
  (forall texts : list string,
     exists h,
       attach_db_errors texts ErrorHandler.__init__ = Ok h /\
       ErrorHandler.get_database_errors_statistics_msg h
         = fmt_nat (length (remove_dups texts))
             +:+ " error(s) occured during run." +:+ nl) /\
  (forall (x : string) (n : nat),
     exists h,
       attach_db_errors (replicate (S n) x) ErrorHandler.__init__ = Ok h /\
       ErrorHandler._db_error_collection h = [(x, Z.of_nat (S n))] /\
       ErrorHandler.get_database_errors_statistics_msg h
         = "1 error(s) occured during run." +:+ nl).
Proof.
  split.
  - intros texts.
    destruct (attach_db_errors_keys texts ErrorHandler.__init__)
      as (h & Hrun & Hnd & Hk); [constructor|].
    exists h. split; [done|].
    unfold ErrorHandler.get_database_errors_statistics_msg,
      DatabaseErrorCollection.get_error_count_msg, PyDict.len.
    do 2 f_equal. rewrite <- (length_map fst).
    apply Permutation_length, NoDup_Permutation; [done | apply NoDup_remove_dups|].
    intros t. rewrite Hk, elem_of_remove_dups.
    cbn [ErrorHandler.__init__ ErrorHandler._db_error_collection PyDict.empty map].
    rewrite elem_of_nil. tauto.
  - intros x n. unfold attach_db_errors. cbn [replicate for_each].
    rewrite attach_db_error_eq. cbn [mbind result_bind].
    match goal with
    | |- context [for_each _ _ ?h1] =>
        destruct (attach_db_errors_same x n h1 1%Z) as (h & Hrun & Hdb); [done|]
    end.
    unfold attach_db_errors in Hrun. exists h. split; [done|]. split.
    + rewrite Hdb. do 2 f_equal. lia.
    + unfold ErrorHandler.get_database_errors_statistics_msg,
        DatabaseErrorCollection.get_error_count_msg. by rewrite Hdb.
Qed.

(** C6: no ingestion method raises, whatever it is given.  For every
    [record_data], [attach_validation_error] returns normally and appends
    one record, in which a field whose key is missing is absent: suffix and
    value are the lookups of their keys, and for the empty mapping the
    record has no suffix, no value and (outside stage ["protocol"]) no
    target. *)
Theorem C6_ingestion_never_raises (h : ErrorHandler.t) :
  (forall stage param (data_dict : gmap string string) notice,
     exists h' r,
       ErrorHandler.attach_validation_error h stage param data_dict notice = Ok h' /\
       ErrorHandler._validation_error_collection h'
         = ErrorHandler._validation_error_collection h ++ [r] /\
       ValidationError.suffix r = data_dict !! (stage +:+ "_id") /\
       ValidationError.value r = data_dict !! param) /\
  (forall stage param notice,
     exists h',
       ErrorHandler.attach_validation_error h stage param ∅ notice = Ok h' /\
       ErrorHandler._validation_error_collection h'
         = ErrorHandler._validation_error_collection h
             ++ [ValidationError.__init__
                   (if decide (stage = "protocol") then Some "Protocol" else None)
                   stage None param None notice]) /\
  (forall target stage id,
     exists h', ErrorHandler.attach_consistency_error h target stage id = Ok h') /\
  (forall text, exists h', ErrorHandler.attach_db_error h text = Ok h').
Proof.
  repeat split.
  - intros. rewrite attach_validation_error_eq. eexists _, _.
    split; [reflexivity|]. cbn. repeat split.
  - intros. rewrite attach_validation_error_eq. eexists. split; [reflexivity|].
    cbn [ErrorHandler._validation_error_collection]. unfold validation_record.
    by rewrite !lookup_empty.
  - intros. eexists. reflexivity.
  - intros. rewrite attach_db_error_eq. eexists. reflexivity.
Qed.

(** C7: two collections that are permutations of each other are grouped
    into the same buckets: both groupings return normally, a (target,
    stage) pair has a bucket in one exactly when it has one in the other,
    and the two buckets hold the same records up to order. *)
Theorem C7_grouping_order_independent {A} `{ErrorRecord A} (c1 c2 : list A) :
  Permutation c1 c2 ->
  exists d1 d2,
    ErrorCollection.__group_errors_t_s c1 = Ok d1 /\
    ErrorCollection.__group_errors_t_s c2 = Ok d2 /\
    forall t s, option_Forall2 Permutation (bucket d1 t s) (bucket d2 t s).
Proof.
  intros Hp. exists (grouped c1), (grouped c2).
  split; [apply group_errors_t_s_eq|]. split; [apply group_errors_t_s_eq|].
  intros t s. rewrite !bucket_grouped.
  pose proof (filter_Permutation (in_bucket t s) _ _ Hp) as Hf.
  destruct (List.filter (in_bucket t s) c1) as [|x1 e1] eqn:E1,
           (List.filter (in_bucket t s) c2) as [|x2 e2] eqn:E2.
  - constructor.
  - by apply Permutation_nil_cons in Hf.
  - symmetry in Hf. by apply Permutation_nil_cons in Hf.
  - by constructor.
Qed.

Lemma C7_grouping_order_independent_witness :
  let r1 := ValidationError.__init__ (Some "490007") "expression" (Some "V13")
              "protocol_id" (Some "uva_cloning_12") (Some "Protocol is missing") in
  let r2 := ValidationError.__init__ (Some "490007") "expression" (Some "V13")
              "protocol_id" (Some "uva_cloning_12") (Some "Protocol is gone") in
  Permutation [r1; r2] [r2; r1] /\
  exists d1 d2,
    ErrorCollection.__group_errors_t_s [r1; r2] = Ok d1 /\
    ErrorCollection.__group_errors_t_s [r2; r1] = Ok d2 /\
    forall t s, option_Forall2 Permutation (bucket d1 t s) (bucket d2 t s).
Proof.
  cbv zeta. split; [apply perm_swap|].
  apply C7_grouping_order_independent. apply perm_swap.
Defined.

(** C8: on a new handler, [increment_inserted('clone')] twice and then
    [set_lab_db_count('clone', 231)] leave one counter dict, for stage
    ["clone"], with [inserted] at 2 and [lab_db] at 231 and no [updated]
    key; the counters report prints the stage and these two counters, in
    the order in which the dict enumerates them. *)
Theorem C8_counters_scenario `{DictOrder string} :
  exists h1 h2 h3 rc,
    ErrorHandler.increment_inserted ErrorHandler.__init__ "clone" = Ok h1 /\
    ErrorHandler.increment_inserted h1 "clone" = Ok h2 /\
    ErrorHandler.set_lab_db_count h2 "clone" 231 = Ok h3 /\
    ErrorHandler._r_counter h3 = [("clone", rc)] /\
    rc = [("inserted", 2%Z); ("lab_db", 231%Z)] /\
    PyDict.has_key rc "updated" = false /\
    (ErrorHandler.get_count_values_msg h3
     = "clone:" +:+ nl +:+ tab +:+ "inserted records: 2" +:+ nl
         +:+ tab +:+ "lab_db records: 231" +:+ nl
     \/
     ErrorHandler.get_count_values_msg h3
     = "clone:" +:+ nl +:+ tab +:+ "lab_db records: 231" +:+ nl
         +:+ tab +:+ "inserted records: 2" +:+ nl).
Proof.
  exists (ErrorHandler.Build [] [] [] [("clone", [("inserted", 1%Z)])]
            ["Logger initiated."]),
         (ErrorHandler.Build [] [] [] [("clone", [("inserted", 2%Z)])]
            ["Logger initiated."]),
         (ErrorHandler.Build [] [] [] [("clone", [("inserted", 2%Z); ("lab_db", 231%Z)])]
            ["Logger initiated."]),
         [("inserted", 2%Z); ("lab_db", 231%Z)].
  split; [reflexivity|]. split; [reflexivity|]. split; [reflexivity|].
  split; [reflexivity|]. split; [reflexivity|]. split; [reflexivity|].
  unfold ErrorHandler.get_count_values_msg, PyDict.items, PyDict.keys.
  cbn [ErrorHandler._r_counter ErrorHandler.with_r_counter map fst].
  pose proof (iter_keys_perm ["clone"]) as ->%Permutation_singleton_r.
  cbn [omap list_omap PyDict.find]. rewrite decide_True by done.
  cbn [fold_left map fst].
  pose proof (iter_keys_perm ["inserted"; "lab_db"]) as Hp.
  symmetry in Hp. apply Permutation_length_2_inv in Hp as [-> | ->];
    [left | right]; vm_compute; reflexivity.
Qed.

(** C9: [__str__] of a validation error prints an absent notice, value or
    suffix as the text [None]: the field is neither left out nor printed as
    an empty string. *)
Theorem C9_absent_fields_render_as_None :
  (forall r : ValidationError.t,
     ValidationError.__str__ r
     = "Error: " +:+ fmt_s (ValidationError.notice r) +:+ ", Value of "
         +:+ ValidationError.parameter r +:+ " = '"
         +:+ fmt_s (ValidationError.value r) +:+ "' for "
         +:+ (ValidationError.stage r +:+ "_") +:+ "id = '"
         +:+ fmt_s (ValidationError.suffix r) +:+ "'" +:+ nl) /\
  fmt_s None = "None" /\
  (forall target stage parameter notice,
     ValidationError.__str__
       (ValidationError.__init__ target stage None parameter None (Some notice))
     = "Error: " +:+ notice +:+ ", Value of " +:+ parameter +:+ " = 'None' for "
         +:+ (stage +:+ "_") +:+ "id = 'None'" +:+ nl) /\
  ValidationError.__str__
    (ValidationError.__init__ (Some "490006") "clone" None "protocol_id" None None)
  = "Error: None, Value of protocol_id = 'None' for clone_id = 'None'" +:+ nl.
Proof. repeat split. Qed.

(** C10: every ingestion and counter method returns normally and changes
    its own collection only: the other owned collections are the same
    afterwards, and only [attach_db_error] writes to the log. *)
Theorem C10_methods_change_their_own_collection_only (h : ErrorHandler.t) :
  (forall stage param data_dict notice,
     exists h',
       ErrorHandler.attach_validation_error h stage param data_dict notice = Ok h' /\
       ErrorHandler._db_error_collection h' = ErrorHandler._db_error_collection h /\
       ErrorHandler._consistency_error_collection h'
         = ErrorHandler._consistency_error_collection h /\
       ErrorHandler._r_counter h' = ErrorHandler._r_counter h /\
       ErrorHandler._logger h' = ErrorHandler._logger h) /\
  (forall target stage id,
     exists h',
       ErrorHandler.attach_consistency_error h target stage id = Ok h' /\
       ErrorHandler._validation_error_collection h'
         = ErrorHandler._validation_error_collection h /\
       ErrorHandler._db_error_collection h' = ErrorHandler._db_error_collection h /\
       ErrorHandler._r_counter h' = ErrorHandler._r_counter h /\
       ErrorHandler._logger h' = ErrorHandler._logger h) /\
  (forall text,
     exists h',
       ErrorHandler.attach_db_error h text = Ok h' /\
       ErrorHandler._validation_error_collection h'
         = ErrorHandler._validation_error_collection h /\
       ErrorHandler._consistency_error_collection h'
         = ErrorHandler._consistency_error_collection h /\
       ErrorHandler._r_counter h' = ErrorHandler._r_counter h /\
       ErrorHandler._logger h' = ErrorHandler._logger h ++ [text]) /\
  (forall stage,
     exists h',
       ErrorHandler.increment_inserted h stage = Ok h' /\
       ErrorHandler._validation_error_collection h'
         = ErrorHandler._validation_error_collection h /\
       ErrorHandler._db_error_collection h' = ErrorHandler._db_error_collection h /\
       ErrorHandler._consistency_error_collection h'
         = ErrorHandler._consistency_error_collection h /\
       ErrorHandler._logger h' = ErrorHandler._logger h) /\
  (forall stage,
     exists h',
       ErrorHandler.increment_updated h stage = Ok h' /\
       ErrorHandler._validation_error_collection h'
         = ErrorHandler._validation_error_collection h /\
       ErrorHandler._db_error_collection h' = ErrorHandler._db_error_collection h /\
       ErrorHandler._consistency_error_collection h'
         = ErrorHandler._consistency_error_collection h /\
       ErrorHandler._logger h' = ErrorHandler._logger h) /\
  (forall stage value,
     exists h',
       ErrorHandler.set_lab_db_count h stage value = Ok h' /\
       ErrorHandler._validation_error_collection h'
         = ErrorHandler._validation_error_collection h /\
       ErrorHandler._db_error_collection h' = ErrorHandler._db_error_collection h /\
       ErrorHandler._consistency_error_collection h'
         = ErrorHandler._consistency_error_collection h /\
       ErrorHandler._logger h' = ErrorHandler._logger h) /\
  (forall stage value,
     exists h',
       ErrorHandler.set_center_db_count h stage value = Ok h' /\
       ErrorHandler._validation_error_collection h'
         = ErrorHandler._validation_error_collection h /\
       ErrorHandler._db_error_collection h' = ErrorHandler._db_error_collection h /\
       ErrorHandler._consistency_error_collection h'
         = ErrorHandler._consistency_error_collection h /\
       ErrorHandler._logger h' = ErrorHandler._logger h).
Proof.
  repeat split.
  - intros. rewrite attach_validation_error_eq. eexists. by split.
  - intros. eexists. by split.
  - intros. rewrite attach_db_error_eq. eexists. by split.
  - intros. rewrite increment_inserted_eq. eexists. by split.
  - intros. rewrite increment_updated_eq. eexists. by split.
  - intros. rewrite set_lab_db_count_eq. eexists. by split.
  - intros. rewrite set_center_db_count_eq. eexists. by split.
Qed.

(** * Further properties of the code *)

(** ** [__group_errors_s] and [get_error_count_summary] *)

Lemma for_each_setitem {V} (gs : dict pykey V) : forall pre : dict pykey V,
  NoDup (map fst pre ++ map fst gs) ->
  for_each gs (fun error_dict '(k, v) => Ok (PyDict.setitem error_dict k v)) pre
  = Ok (pre ++ gs).
Proof.
  induction gs as [|[k v] gs IH]; intros pre Hnd.
  - cbn [for_each]. by rewrite app_nil_r.
  - cbn [for_each mbind result_bind].
    assert (~ In k (map fst pre)) as Hk.
    { intros Hin. cbn [map fst] in Hnd.
      apply NoDup_app in Hnd as (_ & Hdisj & _).
      apply (Hdisj k); [by apply list_elem_of_In | apply list_elem_of_here]. }
    rewrite setitem_new by done. rewrite IH.
    + by rewrite <- app_assoc.
    + rewrite map_app. cbn [map fst] in *. by rewrite <- app_assoc.
Qed.

Section SummaryFacts.
Context {A : Type} `{ErrorRecord A} `{DictOrder pykey}.

Lemma group_errors_s_eq (self : list A) :
  ErrorCollection.__group_errors_s self = Ok (by_stage self).
Proof.
  unfold ErrorCollection.__group_errors_s. cbv zeta.
  rewrite for_each_setitem; [done|].
  cbn [map app PyDict.empty]. apply py_ltP_sorted_NoDup.
  apply (groupby_sorted stage self).
Qed.

Lemma by_stage_NoDup (self : list A) : NoDup (map fst (by_stage self)).
Proof. apply py_ltP_sorted_NoDup, (groupby_sorted stage self). Qed.

Lemma by_stage_records (self : list A) :
  Permutation (concat (map snd (PyDict.items (by_stage self)))) self.
Proof.
  rewrite (items_perm (by_stage self)) by apply by_stage_NoDup.
  unfold by_stage. rewrite groupby_concat. apply sorted_perm.
Qed.

Lemma get_error_count_summary_eq (self : list A) :
  ErrorCollection.get_error_count_summary self
  = Ok (fmt_nat (length self) +:+ " error(s) occured during this run." +:+ nl
        +:+ join (map count_line (PyDict.items (by_stage self)))).
Proof.
  unfold ErrorCollection.get_error_count_summary. cbv zeta.
  rewrite group_errors_s_eq. cbn [mbind result_bind].
  rewrite (for_each_join_sum _ count_line (fun b => length b.2)).
  - cbn [mbind result_bind]. do 3 f_equal.
    rewrite <- (Permutation_length (by_stage_records self)).
    by rewrite length_concat_sum, map_map.
  - intros [s e] _ m n. reflexivity.
Qed.

(** X1: grouping by stage returns normally; the stages are inserted in
    strictly ascending order, an absent stage first, and looking a stage up
    gives all the records of that stage in ingestion order, or nothing when
    no record has that stage. *)
Theorem X1_group_by_stage (self : list A) :
  exists error_dict,
    ErrorCollection.__group_errors_s self = Ok error_dict /\
    StronglySorted py_ltP (map fst error_dict) /\
    forall s, PyDict.find error_dict s = nonempty (List.filter (keyed stage s) self).
Proof.
  exists (by_stage self). split; [apply group_errors_s_eq|]. split.
  - apply (groupby_sorted stage self).
  - intros s. apply find_groupby_sorted.
Qed.

(** X2: the count summary starts with the number of records in the
    collection and goes on with one line "{count} in {stage}" per stage
    that has records, no stage twice; the count of a line is the number of
    records of its stage, and the counts add up to the total. *)
Theorem X2_count_summary (self : list A) :
  exists lines : list (pykey * list A),
    ErrorCollection.get_error_count_summary self
    = Ok (fmt_nat (length self) +:+ " error(s) occured during this run." +:+ nl
          +:+ join (map count_line lines)) /\
    NoDup (map fst lines) /\
    Forall (fun b => b.2 = List.filter (keyed stage b.1) self /\ b.2 <> []) lines /\
    Forall (fun x => stage x ∈ map fst lines) self /\
    list_sum (map (fun b => length b.2) lines) = length self.
Proof.
  exists (PyDict.items (by_stage self)).
  pose proof (by_stage_NoDup self) as Hnd.
  pose proof (items_perm (by_stage self) Hnd) as Hp.
  split; [apply get_error_count_summary_eq|]. split; [by rewrite Hp|].
  split; [|split].
  - rewrite Hp, Forall_forall. intros [s e] Hin%list_elem_of_In.
    apply find_In in Hin; [|done]. unfold by_stage in Hin.
    rewrite find_groupby_sorted in Hin. cbn [fst snd].
    destruct (List.filter (keyed stage s) self); [done|].
    cbn [nonempty] in Hin. by injection Hin as <-.
  - rewrite Forall_forall. intros x Hx%list_elem_of_In. rewrite Hp.
    apply list_elem_of_In, groupby_sorted_keys. eauto.
  - rewrite <- (Permutation_length (by_stage_records self)).
    by rewrite length_concat_sum, map_map.
Qed.

Lemma grouped_cons_nonempty (x : A) (self : list A) :
  exists kd d, grouped (x :: self) = kd :: d.
Proof.
  destruct (grouped (x :: self)) as [|kd d] eqn:E; [|by eauto]. exfalso.
  unfold grouped in E. apply map_eq_nil, groupby_nil_inv in E.
  pose proof (sorted_perm target (x :: self)) as Hp. rewrite E in Hp.
  by apply Permutation_nil_cons in Hp.
Qed.

(** X3: on an empty collection the full report is the empty string, the
    count summary is the zero total line alone, and the count by target is
    the zero total line followed by one space; the full report of a
    collection with at least one record starts with a target header. *)
Theorem X3_reports_of_empty_collection :
  ErrorCollection.get_error_msg (@nil A) = Ok "" /\
  ErrorCollection.get_error_count_summary (@nil A)
    = Ok ("0 error(s) occured during this run." +:+ nl) /\
  ErrorCollection.get_error_count_msg (@nil A)
    = Ok ("0 error(s) occured during this run." +:+ nl +:+ " ") /\
  forall (x : A) (self : list A),
    exists rest,
      ErrorCollection.get_error_msg (x :: self) = Ok ("Target: " +:+ rest).
Proof.
  assert (PyDict.items (@nil (pykey * list A)) = []) as Hi.
  { apply Permutation_nil_r. apply (items_perm []). constructor. }
  split; [|split; [|split]].
  - by rewrite get_error_msg_eq.
  - rewrite get_error_count_summary_eq.
    change (by_stage (@nil A)) with (@nil (pykey * list A)). by rewrite Hi.
  - by rewrite get_error_count_msg_eq.
  - intros x self. rewrite get_error_msg_eq. unfold report_blocks.
    destruct (grouped_cons_nonempty x self) as ([k inner] & d & ->).
    cbn [map join fold_right]. unfold render_block at 1. cbn [fst snd].
    eexists. rewrite !string_app_assoc. reflexivity.
Qed.
End SummaryFacts.

(** ** [RecordCounter.increment] and the database errors *)

Lemma increments_tally (names : list string) : forall c : RecordCounter.t,
  exists c',
    for_each names RecordCounter.increment c = Ok c' /\
    forall n,
      PyDict.find c' n
      = match count_occ string_dec names n with
        | O => PyDict.find c n
        | S k => Some (default 0 (PyDict.find c n) + Z.of_nat (S k))%Z
        end.
Proof.
  induction names as [|x names IH]; intros c.
  - exists c. by split.
  - cbn [for_each]. rewrite increment_eq. cbn [mbind result_bind].
    match goal with
    | |- context [for_each names _ ?c1] => destruct (IH c1) as (c' & -> & Hc')
    end.
    exists c'. split; [done|]. intros n. rewrite Hc', find_setitem.
    cbn [count_occ]. destruct (string_dec x n) as [->|Hne].
    + rewrite decide_True by done.
      destruct (count_occ string_dec names n), (PyDict.find c n);
        cbn [default from_option id]; f_equal; lia.
    + rewrite decide_False by done. done.
Qed.

(** X4: incrementing a run of counter names never raises; afterwards a
    name that was incremented [k > 0] times holds its old value (0 if it
    had none) plus [k], and every other name holds what it held. *)
Theorem X4_increment_tallies (names : list string) (c : RecordCounter.t) :
  exists c',
    for_each names RecordCounter.increment c = Ok c' /\
    forall n,
      PyDict.find c' n
      = match count_occ string_dec names n with
        | O => PyDict.find c n
        | S k => Some (default 0 (PyDict.find c n) + Z.of_nat (S k))%Z
        end.
Proof. apply increments_tally. Qed.

Lemma attach_db_errors_eq (texts : list string) : forall h,
  attach_db_errors texts h
  = (db ← for_each texts RecordCounter.increment (ErrorHandler._db_error_collection h);
     Ok (ErrorHandler.Build
           (ErrorHandler._validation_error_collection h) db
           (ErrorHandler._consistency_error_collection h)
           (ErrorHandler._r_counter h) (ErrorHandler._logger h ++ texts))).
Proof.
  unfold attach_db_errors. induction texts as [|x texts IH]; intros h.
  - cbn [for_each mbind result_bind]. rewrite app_nil_r. by destruct h.
  - cbn [for_each]. rewrite attach_db_error_eq, increment_eq.
    cbn [mbind result_bind]. rewrite IH.
    cbn [ErrorHandler._validation_error_collection
      ErrorHandler._db_error_collection ErrorHandler._consistency_error_collection
      ErrorHandler._r_counter ErrorHandler._logger].
    by rewrite <- app_assoc.
Qed.

(** X5: a run of [attach_db_error] calls returns normally, hands every
    text to the log in call order, repeated texts included, and leaves in
    the collection, for each text, its old count plus the number of times
    it was attached. *)
Theorem X5_db_errors_logged_and_counted (texts : list string) (h : ErrorHandler.t) :
  exists h',
    attach_db_errors texts h = Ok h' /\
    ErrorHandler._logger h' = ErrorHandler._logger h ++ texts /\
    forall t,
      PyDict.find (ErrorHandler._db_error_collection h') t
      = match count_occ string_dec texts t with
        | O => PyDict.find (ErrorHandler._db_error_collection h) t
        | S k => Some (default 0 (PyDict.find (ErrorHandler._db_error_collection h) t)
                       + Z.of_nat (S k))%Z
        end.
Proof.
  rewrite attach_db_errors_eq.
  destruct (increments_tally texts (ErrorHandler._db_error_collection h))
    as (db & -> & Hdb).
  cbn [mbind result_bind]. eexists. split; [reflexivity|]. by split.
Qed.

Lemma fold_left_join {X} (f : X -> string) body (l : list X) :
  (forall m x, body m x = m +:+ f x) ->
  forall m, fold_left body l m = m +:+ join (map f l).
Proof.
  intros Hb. induction l as [|x l IH]; intros m; cbn [fold_left map join fold_right].
  - by rewrite string_app_nil_r.
  - rewrite IH, Hb. by rewrite string_app_assoc.
Qed.

(** One paragraph of the database error report. *)
Definition db_entry (e : string * Z) : string :=
  "In " +:+ fmt_int e.2 +:+ " recod(s):" +:+ nl +:+ e.1 +:+ nl.

Lemma db_error_msg_eq `{DictOrder string} (e : string * Z) (d : RecordCounter.t) :
  DatabaseErrorCollection.get_error_msg (e :: d)
  = ("Following database errors occured during the run:" +:+ nl)
      +:+ join (map db_entry (PyDict.items (e :: d))).
Proof.
  unfold DatabaseErrorCollection.get_error_msg.
  apply (fold_left_join db_entry). by intros m [k v].
Qed.

(** X6: with no database error attached the report is the fixed sentence;
    after at least one [attach_db_error] on a new handler it is the header
    line followed by one paragraph per distinct text, each giving the
    number of times that text was attached. *)
Theorem X6_db_error_report `{DictOrder string} :
  ErrorHandler.get_db_error_msg ErrorHandler.__init__
    = "There were no database errors during this run." /\
  forall (t : string) (texts : list string),
    exists h entries,
      attach_db_errors (t :: texts) ErrorHandler.__init__ = Ok h /\
      ErrorHandler.get_db_error_msg h
        = ("Following database errors occured during the run:" +:+ nl)
            +:+ join (map db_entry entries) /\
      NoDup (map fst entries) /\
      (forall x, x ∈ map fst entries <-> x ∈ t :: texts) /\
      Forall (fun e => e.2 = Z.of_nat (count_occ string_dec (t :: texts) e.1)) entries.
Proof.
  split; [reflexivity|]. intros t texts.
  destruct (attach_db_errors_keys (t :: texts) ErrorHandler.__init__)
    as (h & Hrun & Hnd & Hk); [constructor|].
  pose proof (items_perm (ErrorHandler._db_error_collection h) Hnd) as Hp.
  exists h, (PyDict.items (ErrorHandler._db_error_collection h)).
  split; [done|]. split; [|split; [by rewrite Hp|split]].
  - unfold ErrorHandler.get_db_error_msg.
    destruct (ErrorHandler._db_error_collection h) as [|e d] eqn:E.
    + exfalso. specialize (Hk t). cbn [map] in Hk. rewrite elem_of_nil in Hk.
      apply Hk. right. apply list_elem_of_here.
    + apply db_error_msg_eq.
  - intros x. rewrite Hp, Hk.
    cbn [ErrorHandler.__init__ ErrorHandler._db_error_collection PyDict.empty map].
    rewrite elem_of_nil. tauto.
  - rewrite Hp, Forall_forall. intros [x n] Hin%list_elem_of_In.
    apply find_In in Hin; [|done]. cbn [fst snd].
    pose proof (attach_db_errors_eq (t :: texts) ErrorHandler.__init__) as Heq.
    destruct (increments_tally (t :: texts)
                (ErrorHandler._db_error_collection ErrorHandler.__init__))
      as (db & Hdb & Hfind).
    rewrite Hdb, Hrun in Heq. cbn [mbind result_bind] in Heq.
    injection Heq as ->. cbn [ErrorHandler._db_error_collection] in Hin.
    rewrite Hfind in Hin.
    destruct (count_occ string_dec (t :: texts) x); [done|].
    cbn [ErrorHandler.__init__ ErrorHandler._db_error_collection PyDict.empty
           PyDict.find default from_option id] in Hin.
    injection Hin as <-. lia.
Qed.

(** ** The stage counters *)

(** [self._r_counter[stage][name]], when both keys are there. *)
Definition counter (r : dict string RecordCounter.t) (stage name : string)
  : option Z :=
  rc ← PyDict.find r stage; PyDict.find rc name.

Lemma find_ensure_stage (r : dict string RecordCounter.t) stage s :
  PyDict.find (ErrorHandler.ensure_stage r stage) s
  = if decide (s = stage) then Some (default PyDict.empty (PyDict.find r stage))
    else PyDict.find r s.
Proof.
  unfold ErrorHandler.ensure_stage, PyDict.has_key.
  destruct (PyDict.find r stage) as [rc|] eqn:E; cbn [negb default from_option id].
  - destruct (decide (s = stage)) as [->|]; done.
  - rewrite find_setitem. destruct (decide (s = stage)); done.
Qed.

(** What all four counter methods do to the counters: one counter of one
    stage is stored, every other counter is as before. *)
Lemma counter_store (r : dict string RecordCounter.t) stage name v s n :
  counter
    (PyDict.setitem (ErrorHandler.ensure_stage r stage) stage
       (PyDict.setitem (default PyDict.empty (PyDict.find r stage)) name v)) s n
  = if decide (s = stage /\ n = name) then Some v else counter r s n.
Proof.
  unfold counter. rewrite find_setitem.
  destruct (decide (s = stage)) as [->|Hs].
  - cbn [mbind option_bind]. rewrite find_setitem.
    destruct (decide (n = name)) as [->|Hn].
    + by rewrite decide_True.
    + rewrite decide_False by tauto. by destruct (PyDict.find r stage).
  - rewrite decide_False by tauto. rewrite find_ensure_stage.
    by rewrite decide_False.
Qed.

Lemma increment_value (rc : RecordCounter.t) name :
  match PyDict.find rc name with
  | Some n => (n + 1)%Z
  | None => 1%Z
  end = (default 0 (PyDict.find rc name) + 1)%Z.
Proof. by destruct (PyDict.find rc name). Qed.

Lemma counter_default (r : dict string RecordCounter.t) stage name :
  PyDict.find (default PyDict.empty (PyDict.find r stage)) name = counter r stage name.
Proof. unfold counter. by destruct (PyDict.find r stage). Qed.

Lemma increment_inserted_counter h stage :
  exists h',
    ErrorHandler.increment_inserted h stage = Ok h' /\
    forall s n,
      counter (ErrorHandler._r_counter h') s n
      = if decide (s = stage /\ n = "inserted")
        then Some (default 0 (counter (ErrorHandler._r_counter h) stage "inserted") + 1)%Z
        else counter (ErrorHandler._r_counter h) s n.
Proof.
  rewrite increment_inserted_eq. eexists. split; [reflexivity|]. intros s n.
  cbn [ErrorHandler.with_r_counter ErrorHandler._r_counter].
  by rewrite counter_store, increment_value, counter_default.
Qed.

Lemma increment_updated_counter h stage :
  exists h',
    ErrorHandler.increment_updated h stage = Ok h' /\
    forall s n,
      counter (ErrorHandler._r_counter h') s n
      = if decide (s = stage /\ n = "updated")
        then Some (default 0 (counter (ErrorHandler._r_counter h) stage "updated") + 1)%Z
        else counter (ErrorHandler._r_counter h) s n.
Proof.
  rewrite increment_updated_eq. eexists. split; [reflexivity|]. intros s n.
  cbn [ErrorHandler.with_r_counter ErrorHandler._r_counter].
  by rewrite counter_store, increment_value, counter_default.
Qed.

(** X7: [increment_inserted] and [increment_updated] return normally, add
    one to their counter of the given stage, starting from 0 when the
    counter or the stage is new, and leave every other counter of every
    stage as it was. *)
Theorem X7_increment_counters (h : ErrorHandler.t) (stage : string) :
  (exists h',
     ErrorHandler.increment_inserted h stage = Ok h' /\
     forall s n,
       counter (ErrorHandler._r_counter h') s n
       = if decide (s = stage /\ n = "inserted")
         then Some (default 0 (counter (ErrorHandler._r_counter h) stage "inserted") + 1)%Z
         else counter (ErrorHandler._r_counter h) s n) /\
  (exists h',
     ErrorHandler.increment_updated h stage = Ok h' /\
     forall s n,
       counter (ErrorHandler._r_counter h') s n
       = if decide (s = stage /\ n = "updated")
         then Some (default 0 (counter (ErrorHandler._r_counter h) stage "updated") + 1)%Z
         else counter (ErrorHandler._r_counter h) s n).
Proof. split; [apply increment_inserted_counter | apply increment_updated_counter]. Qed.

(** X8: [set_lab_db_count] and [set_center_db_count] return normally and
    store the given value, whatever was stored before, creating the stage
    if need be; every other counter of every stage is as it was. *)
Theorem X8_set_counters (h : ErrorHandler.t) (stage : string) (value : Z) :
  (exists h',
     ErrorHandler.set_lab_db_count h stage value = Ok h' /\
     forall s n,
       counter (ErrorHandler._r_counter h') s n
       = if decide (s = stage /\ n = "lab_db") then Some value
         else counter (ErrorHandler._r_counter h) s n) /\
  (exists h',
     ErrorHandler.set_center_db_count h stage value = Ok h' /\
     forall s n,
       counter (ErrorHandler._r_counter h') s n
       = if decide (s = stage /\ n = "center_db") then Some value
         else counter (ErrorHandler._r_counter h) s n).
Proof.
  split.
  - rewrite set_lab_db_count_eq. eexists. split; [reflexivity|]. intros s n.
    cbn [ErrorHandler.with_r_counter ErrorHandler._r_counter].
    by rewrite counter_store.
  - rewrite set_center_db_count_eq. eexists. split; [reflexivity|]. intros s n.
    cbn [ErrorHandler.with_r_counter ErrorHandler._r_counter].
    by rewrite counter_store.
Qed.

Lemma increment_tally
    (method : ErrorHandler.t -> string -> result ErrorHandler.t) (name : string) :
  (forall h stage,
     exists h',
       method h stage = Ok h' /\
       forall s n,
         counter (ErrorHandler._r_counter h') s n
         = if decide (s = stage /\ n = name)
           then Some (default 0 (counter (ErrorHandler._r_counter h) stage name) + 1)%Z
           else counter (ErrorHandler._r_counter h) s n) ->
  forall stages h,
    exists h',
      for_each stages method h = Ok h' /\
      forall s n,
        counter (ErrorHandler._r_counter h') s n
        = match count_occ string_dec stages s with
          | S k =>
              if decide (n = name)
              then Some (default 0 (counter (ErrorHandler._r_counter h) s n)
                         + Z.of_nat (S k))%Z
              else counter (ErrorHandler._r_counter h) s n
          | O => counter (ErrorHandler._r_counter h) s n
          end.
Proof.
  intros Hstep. induction stages as [|x stages IH]; intros h.
  - exists h. by split.
  - cbn [for_each]. destruct (Hstep h x) as (h1 & -> & H1).
    cbn [mbind result_bind]. destruct (IH h1) as (h' & -> & Hh').
    exists h'. split; [done|]. intros s n. rewrite Hh', !H1.
    cbn [count_occ]. destruct (string_dec x s) as [->|Hne].
    + destruct (decide (n = name)) as [->|Hn].
      * rewrite decide_True by done.
        destruct (count_occ string_dec stages s);
          [done | cbn [default from_option id]; f_equal; lia].
      * rewrite decide_False by tauto.
        by destruct (count_occ string_dec stages s).
    + rewrite decide_False by (intros [-> _]; done). done.
Qed.

(** X9: a run of [increment_inserted] calls leaves, for every stage named
    [k > 0] times in the run, an [inserted] counter that is its old value
    (0 if it had none) plus [k]; the [inserted] counters of other stages
    and all other counters are as before.  The same holds of
    [increment_updated] and the [updated] counters. *)
Theorem X9_increment_tallies (stages : list string) (h : ErrorHandler.t) :
  (exists h',
     for_each stages ErrorHandler.increment_inserted h = Ok h' /\
     forall s n,
       counter (ErrorHandler._r_counter h') s n
       = match count_occ string_dec stages s with
         | S k =>
             if decide (n = "inserted")
             then Some (default 0 (counter (ErrorHandler._r_counter h) s n)
                        + Z.of_nat (S k))%Z
             else counter (ErrorHandler._r_counter h) s n
         | O => counter (ErrorHandler._r_counter h) s n
         end) /\
  (exists h',
     for_each stages ErrorHandler.increment_updated h = Ok h' /\
     forall s n,
       counter (ErrorHandler._r_counter h') s n
       = match count_occ string_dec stages s with
         | S k =>
             if decide (n = "updated")
             then Some (default 0 (counter (ErrorHandler._r_counter h) s n)
                        + Z.of_nat (S k))%Z
             else counter (ErrorHandler._r_counter h) s n
         | O => counter (ErrorHandler._r_counter h) s n
         end).
Proof.
  split.
  - apply (increment_tally _ "inserted"), increment_inserted_counter.
  - apply (increment_tally _ "updated"), increment_updated_counter.
Qed.

(** ** The counters report over a run of counter calls *)

Inductive counter_call :=
| Increment_updated (stage : string)
| Increment_inserted (stage : string)
| Set_lab_db_count (stage : string) (value : Z)
| Set_center_db_count (stage : string) (value : Z).

Definition call_stage (c : counter_call) : string :=
  match c with
  | Increment_updated stage | Increment_inserted stage
  | Set_lab_db_count stage _ | Set_center_db_count stage _ => stage
  end.

Definition do_counter_call (h : ErrorHandler.t) (c : counter_call)
  : result ErrorHandler.t :=
  match c with
  | Increment_updated stage => ErrorHandler.increment_updated h stage
  | Increment_inserted stage => ErrorHandler.increment_inserted h stage
  | Set_lab_db_count stage value => ErrorHandler.set_lab_db_count h stage value
  | Set_center_db_count stage value => ErrorHandler.set_center_db_count h stage value
  end.

Lemma ensure_stage_keys (r : dict string RecordCounter.t) stage :
  map fst (ErrorHandler.ensure_stage r stage)
  = map fst r ++ (if PyDict.has_key r stage then [] else [stage]).
Proof.
  unfold ErrorHandler.ensure_stage.
  destruct (PyDict.has_key r stage) eqn:E; cbn [negb].
  - by rewrite app_nil_r.
  - rewrite setitem_new, map_app; [done|].
    intros Hin%has_key_In. congruence.
Qed.

Lemma store_keys (r : dict string RecordCounter.t) stage rc :
  map fst (PyDict.setitem (ErrorHandler.ensure_stage r stage) stage rc)
  = map fst r ++ (if PyDict.has_key r stage then [] else [stage]).
Proof.
  rewrite setitem_keys_known; [apply ensure_stage_keys|].
  rewrite ensure_stage_keys, in_app_iff.
  destruct (PyDict.has_key r stage) eqn:E.
  - left. by apply (proj1 (has_key_In r stage)).
  - right. by left.
Qed.

Lemma store_eq (r : dict string RecordCounter.t) stage rc :
  PyDict.setitem (ErrorHandler.ensure_stage r stage) stage rc
  = if PyDict.has_key r stage then PyDict.setitem r stage rc
    else r ++ [(stage, rc)].
Proof.
  unfold ErrorHandler.ensure_stage.
  destruct (PyDict.has_key r stage) eqn:E; cbn [negb]; [done|].
  assert (~ In stage (map fst r)) as Hn.
  { intros Hin%has_key_In. congruence. }
  by rewrite (setitem_new r), setitem_last.
Qed.

(** The effect of any counter call on the dict of stages: some counter
    [name] of the stage is stored. *)
Lemma do_counter_call_eq h c :
  exists name v,
    do_counter_call h c
    = Ok (ErrorHandler.with_r_counter h
            (PyDict.setitem
               (ErrorHandler.ensure_stage (ErrorHandler._r_counter h) (call_stage c))
               (call_stage c)
               (PyDict.setitem
                  (default PyDict.empty
                     (PyDict.find (ErrorHandler._r_counter h) (call_stage c)))
                  name v))).
Proof.
  destruct c as [stage|stage|stage value|stage value]; cbn [do_counter_call call_stage].
  - rewrite increment_updated_eq. by eexists _, _.
  - rewrite increment_inserted_eq. by eexists _, _.
  - rewrite set_lab_db_count_eq. by eexists _, _.
  - rewrite set_center_db_count_eq. by eexists _, _.
Qed.


(** Every stage and every counter name occurs once, and no stage is
    without counters. *)
Definition counters_ok (r : dict string RecordCounter.t) : Prop :=
  NoDup (map fst r) /\ Forall (fun kd => NoDup (map fst kd.2) /\ kd.2 <> []) r.

Lemma setitem_Forall {V} (P : string * V -> Prop) (d : dict string V) k v :
  Forall P d -> P (k, v) -> Forall P (PyDict.setitem d k v).
Proof.
  intros Hd Hkv. induction Hd as [|[k' v'] d Hk' Hd IH]; cbn [PyDict.setitem].
  - by constructor.
  - destruct (decide (k = k')); by constructor.
Qed.

Lemma setitem_not_nil {V} (d : dict string V) k v : PyDict.setitem d k v <> [].
Proof. destruct d as [|[k' v'] d]; cbn [PyDict.setitem]; [done|]. by destruct (decide _). Qed.

Lemma do_counter_call_ok h c :
  counters_ok (ErrorHandler._r_counter h) ->
  exists h',
    do_counter_call h c = Ok h' /\
    counters_ok (ErrorHandler._r_counter h') /\
    forall s, s ∈ map fst (ErrorHandler._r_counter h')
              <-> s ∈ map fst (ErrorHandler._r_counter h) \/ s = call_stage c.
Proof.
  intros [Hnd Hall]. destruct (do_counter_call_eq h c) as (name & v & ->).
  eexists. split; [reflexivity|].
  cbn [ErrorHandler.with_r_counter ErrorHandler._r_counter].
  set (r := ErrorHandler._r_counter h) in *. set (stage := call_stage c).
  assert (NoDup (map fst (default PyDict.empty (PyDict.find r stage)))) as Hrc.
  { destruct (PyDict.find r stage) as [rc|] eqn:E; [|constructor].
    apply find_Some_In in E. rewrite Forall_forall in Hall.
    by apply (Hall (stage, rc)), list_elem_of_In. }
  split; [split|].
  - rewrite store_keys. destruct (PyDict.has_key r stage) eqn:E.
    + by rewrite app_nil_r.
    + apply NoDup_app. split; [done|]. split; [|apply NoDup_singleton].
      intros s Hs ->%list_elem_of_singleton.
      apply list_elem_of_In, has_key_In in Hs. congruence.
  - assert (NoDup (map fst (PyDict.setitem
                (default PyDict.empty (PyDict.find r stage)) name v))
            /\ PyDict.setitem (default PyDict.empty (PyDict.find r stage)) name v <> [])
      as Hnew.
    { split; [by apply setitem_keys | apply setitem_not_nil]. }
    rewrite store_eq. destruct (PyDict.has_key r stage).
    + by apply setitem_Forall.
    + apply Forall_app. split; [done|]. by constructor.
  - intros s. rewrite store_keys, elem_of_app.
    destruct (PyDict.has_key r stage) eqn:E.
    + rewrite elem_of_nil. split; [tauto|]. intros [?| ->]; [tauto|].
      left. by apply list_elem_of_In, has_key_In.
    + by rewrite list_elem_of_singleton.
Qed.

Lemma counter_calls_ok (calls : list counter_call) : forall h,
  counters_ok (ErrorHandler._r_counter h) ->
  exists h',
    for_each calls do_counter_call h = Ok h' /\
    counters_ok (ErrorHandler._r_counter h') /\
    forall s, s ∈ map fst (ErrorHandler._r_counter h')
              <-> s ∈ map fst (ErrorHandler._r_counter h) \/ s ∈ map call_stage calls.
Proof.
  induction calls as [|c calls IH]; intros h Hok.
  - exists h. split; [done|]. split; [done|]. intros s. cbn [map].
    rewrite elem_of_nil. tauto.
  - cbn [for_each]. destruct (do_counter_call_ok h c Hok) as (h1 & -> & Hok1 & Hk1).
    cbn [mbind result_bind]. destruct (IH h1 Hok1) as (h' & -> & Hok' & Hk').
    exists h'. split; [done|]. split; [done|]. intros s.
    rewrite Hk', Hk1. cbn [map]. rewrite elem_of_cons. tauto.
Qed.

(** One line and one section of the counters report. *)
Definition counter_line (e : string * Z) : string :=
  tab +:+ e.1 +:+ " records: " +:+ fmt_int e.2 +:+ nl.

Definition stage_section (sec : string * list (string * Z)) : string :=
  (sec.1 +:+ ":" +:+ nl) +:+ join (map counter_line sec.2).

Section CountersReport.
Context `{DictOrder string}.

Lemma get_count_values_msg_eq (h : ErrorHandler.t) :
  ErrorHandler.get_count_values_msg h
  = join (map (fun kd => stage_section (kd.1, PyDict.items kd.2))
              (PyDict.items (ErrorHandler._r_counter h))).
Proof.
  unfold ErrorHandler.get_count_values_msg.
  rewrite (fold_left_join (fun kd => stage_section (kd.1, PyDict.items kd.2)));
    [done|].
  intros m [stage rc]. rewrite (fold_left_join counter_line) by (by intros ? []).
  unfold stage_section. cbn [fst snd]. by rewrite string_app_assoc.
Qed.

(** X11: after any run of counter calls on a new handler the counters
    report consists of one section per stage named in the run, no stage
    twice; a section is the stage name and at least one counter line, no
    counter twice, and every line shows the current value of its counter. *)
Theorem X11_counters_report (calls : list counter_call) :
  exists h (sections : list (string * list (string * Z))),
    for_each calls do_counter_call ErrorHandler.__init__ = Ok h /\
    ErrorHandler.get_count_values_msg h = join (map stage_section sections) /\
    NoDup (map fst sections) /\
    (forall s, s ∈ map fst sections <-> s ∈ map call_stage calls) /\
    Forall (fun sec =>
              sec.2 <> [] /\ NoDup (map fst sec.2) /\
              Forall (fun e => counter (ErrorHandler._r_counter h) sec.1 e.1 = Some e.2)
                     sec.2)
           sections.
Proof.
  destruct (counter_calls_ok calls ErrorHandler.__init__)
    as (h & Hrun & [Hnd Hall] & Hk).
  { split; constructor. }
  set (r := ErrorHandler._r_counter h) in *.
  pose proof (items_perm r Hnd) as Hp.
  exists h, (map (fun kd => (kd.1, PyDict.items kd.2)) (PyDict.items r)).
  split; [done|]. split; [|split; [|split]].
  - rewrite get_count_values_msg_eq, map_map. done.
  - rewrite map_map. cbn [fst]. by rewrite Hp.
  - intros s. rewrite map_map. cbn [fst]. rewrite Hp, Hk.
    cbn [ErrorHandler.__init__ ErrorHandler._r_counter PyDict.empty map].
    rewrite elem_of_nil. tauto.
  - rewrite Forall_map, Forall_forall. intros [stage rc] Hin. cbn [fst snd].
    rewrite Hp in Hin. rewrite Forall_forall in Hall.
    destruct (Hall _ Hin) as [Hrc Hne]. cbn [snd] in Hrc, Hne.
    pose proof (items_perm rc Hrc) as Hprc.
    split; [|split].
    + intros E. rewrite E in Hprc. by apply Permutation_nil in Hprc.
    + by rewrite Hprc.
    + rewrite Hprc, Forall_forall. intros [name v] He. cbn [fst snd].
      unfold counter. rewrite (find_In r stage rc Hnd) by (by apply list_elem_of_In).
      cbn [mbind option_bind]. apply find_In; [done | by apply list_elem_of_In].
Qed.
End CountersReport.

(** ** Consistency errors *)

Definition attach_consistency_errors
    (calls : list (option string * option string * option string))
    (h : ErrorHandler.t) : result ErrorHandler.t :=
  for_each calls
    (fun h '(target, stage, id) =>
       ErrorHandler.attach_consistency_error h target stage id)
    h.

Lemma attach_consistency_error_eq h target stage id :
  ErrorHandler.attach_consistency_error h target stage id
  = Ok (ErrorHandler.Build
          (ErrorHandler._validation_error_collection h)
          (ErrorHandler._db_error_collection h)
          (ErrorHandler._consistency_error_collection h
             ++ [ConsistencyError.__init__ target stage id])
          (ErrorHandler._r_counter h) (ErrorHandler._logger h)).
Proof. reflexivity. Qed.

Lemma attach_consistency_errors_eq calls : forall h,
  attach_consistency_errors calls h
  = Ok (ErrorHandler.Build
          (ErrorHandler._validation_error_collection h)
          (ErrorHandler._db_error_collection h)
          (ErrorHandler._consistency_error_collection h
             ++ map (fun '(target, stage, id) =>
                       ConsistencyError.__init__ target stage id) calls)
          (ErrorHandler._r_counter h) (ErrorHandler._logger h)).
Proof.
  unfold attach_consistency_errors.
  induction calls as [|[[target stage] id] calls IH]; intros h.
  - cbn [for_each map]. rewrite app_nil_r. by destruct h.
  - cbn [for_each]. rewrite attach_consistency_error_eq.
    cbn [mbind result_bind]. rewrite IH.
    cbn [ErrorHandler._validation_error_collection
      ErrorHandler._db_error_collection ErrorHandler._consistency_error_collection
      ErrorHandler._r_counter ErrorHandler._logger map].
    by rewrite <- app_assoc.
Qed.

(** X12: a run of [attach_consistency_error] calls returns normally and
    appends one record per call, in call order, with the target, stage and
    suffix of the call; the full consistency report then prints the line
    "Missing suffix: {suffix}" of every record of the collection once,
    under the header of the record's own target and stage, no header
    twice. *)
Theorem X12_consistency_report `{DictOrder pykey}
    (calls : list (option string * option string * option string))
    (h0 : ErrorHandler.t) :
  exists h,
    attach_consistency_errors calls h0 = Ok h /\
    let c := ErrorHandler._consistency_error_collection h in
    c = ErrorHandler._consistency_error_collection h0
          ++ map (fun '(target, stage, id) =>
                    ConsistencyError.__init__ target stage id) calls /\
    ErrorHandler.get_consistency_error_msg h
      = Ok (join (map render_block (report_blocks c))) /\
    (forall r : ConsistencyError.t,
       render_item r
       = tab +:+ tab +:+ "Missing suffix: " +:+ fmt_s (ConsistencyError.suffix r)
           +:+ nl) /\
    Permutation (emitted c) c /\
    well_bucketed (report_blocks c).
Proof.
  rewrite attach_consistency_errors_eq. eexists. split; [reflexivity|].
  cbn [ErrorHandler._consistency_error_collection].
  split; [done|]. split; [apply get_error_msg_eq|]. split; [done|].
  split; [apply emitted_perm | apply report_blocks_well_bucketed].
Qed.

(** ** The count reports do not depend on the order of ingestion *)

Lemma group_keys_perm {A} (key : A -> pykey) (l1 l2 : list A) :
  Permutation l1 l2 ->
  map fst (groupby key (sorted key l1)) = map fst (groupby key (sorted key l2)).
Proof.
  intros Hp.
  pose proof (proj1 (groupby_sorted key l1)) as H1.
  pose proof (proj1 (groupby_sorted key l2)) as H2.
  apply (StronglySorted_unique py_le); [by apply py_ltP_sorted_le..|].
  apply NoDup_Permutation; [by apply py_ltP_sorted_NoDup..|].
  intros k. rewrite !list_elem_of_In, !groupby_sorted_keys.
  split; intros (x & Hx & <-); exists x; split; try done.
  - by apply (Permutation_in _ Hp).
  - by apply (Permutation_in _ (Permutation_sym Hp)).
Qed.

Lemma nonempty_length_perm {X} (l1 l2 : list X) :
  Permutation l1 l2 -> length <$> nonempty l1 = length <$> nonempty l2.
Proof.
  intros Hp. pose proof (Permutation_length Hp) as Hl.
  destruct l1, l2; try done. cbn in *. by f_equal.
Qed.

(** A bucket seen as its key and the number of its records. *)
Definition bucket_size {A} (b : pykey * list A) : pykey * nat := (b.1, length b.2).

Lemma items_sizes {A} `{DictOrder pykey} (d1 d2 : dict pykey (list A)) :
  map fst d1 = map fst d2 ->
  (forall k, length <$> PyDict.find d1 k = length <$> PyDict.find d2 k) ->
  map bucket_size (PyDict.items d1) = map bucket_size (PyDict.items d2).
Proof.
  intros Hk Hf. unfold PyDict.items, PyDict.keys. rewrite Hk.
  induction (iter_keys (map fst d2)) as [|k ks IH]; [done|].
  cbn [omap list_omap]. specialize (Hf k).
  destruct (PyDict.find d1 k), (PyDict.find d2 k); try done.
  cbn [map]. unfold bucket_size at 1 3. cbn [fst snd].
  cbn in Hf. injection Hf as ->. by f_equal.
Qed.

Lemma by_stage_sizes {A} `{ErrorRecord A} `{DictOrder pykey} (v1 v2 : list A) :
  Permutation v1 v2 ->
  map bucket_size (PyDict.items (by_stage v1))
  = map bucket_size (PyDict.items (by_stage v2)).
Proof.
  intros Hp. apply items_sizes.
  - by apply group_keys_perm.
  - intros k. unfold by_stage. rewrite !find_groupby_sorted.
    by apply nonempty_length_perm, filter_Permutation.
Qed.

Definition count_line_of (b : pykey * nat) : string :=
  tab +:+ fmt_nat b.2 +:+ " in " +:+ fmt_s b.1 +:+ nl.

Lemma count_lines_sizes {A} (bs : list (pykey * list A)) :
  map count_line bs = map count_line_of (map bucket_size bs).
Proof. by rewrite map_map. Qed.

Lemma block_total_sizes {A} (kb : pykey * list (pykey * list A)) :
  block_total kb = list_sum (map snd (map bucket_size kb.2)).
Proof. unfold block_total. by rewrite map_map. Qed.

Definition count_section_of (ks : pykey * list (pykey * nat)) : string :=
  "Target: " +:+ fmt_s ks.1 +:+ tab +:+ "(" +:+ fmt_nat (list_sum (map snd ks.2))
    +:+ " error(s))" +:+ nl +:+ join (map count_line_of ks.2).

Lemma count_section_sizes {A} (kb : pykey * list (pykey * list A)) :
  count_section kb = count_section_of (kb.1, map bucket_size kb.2).
Proof.
  unfold count_section, count_section_of. cbn [fst snd].
  by rewrite block_total_sizes, count_lines_sizes.
Qed.

Section OrderIndependence.
Context {A : Type} `{ErrorRecord A} `{DictOrder pykey}.

Lemma report_blocks_by_keys (self : list A) :
  report_blocks self
  = map (fun k => (k, PyDict.items (by_stage (List.filter (keyed target k) self))))
        (map fst (groupby target (sorted target self))).
Proof.
  unfold report_blocks, grouped. rewrite !map_map. apply map_ext_in.
  intros [k g] Hin. cbn [fst snd].
  destruct (groupby_sorted target self) as [_ Hf]. rewrite Forall_forall in Hf.
  pose proof (Hf (k, g) (proj2 (list_elem_of_In _ _) Hin)) as E.
  cbn [fst snd] in E. by rewrite E.
Qed.

(** X13: the two count reports depend on the records of the collection
    only, not on the order in which they were appended: collections that
    are permutations of each other give the same count by target and the
    same count summary. *)
Theorem X13_count_reports_ignore_order (c1 c2 : list A) :
  Permutation c1 c2 ->
  ErrorCollection.get_error_count_msg c1 = ErrorCollection.get_error_count_msg c2 /\
  ErrorCollection.get_error_count_summary c1
    = ErrorCollection.get_error_count_summary c2.
Proof.
  intros Hp. split.
  - rewrite !get_error_count_msg_eq, !grand_total_eq, (Permutation_length Hp).
    do 6 f_equal. rewrite !report_blocks_by_keys, (group_keys_perm target c1 c2 Hp).
    rewrite !map_map. apply map_ext. intros k. rewrite !count_section_sizes.
    cbn [fst snd]. do 2 f_equal. by apply by_stage_sizes, filter_Permutation.
  - rewrite !get_error_count_summary_eq, (Permutation_length Hp).
    do 5 f_equal. rewrite !count_lines_sizes. f_equal. by apply by_stage_sizes.
Qed.
End OrderIndependence.

Lemma X13_count_reports_ignore_order_witness :
  let r1 := ConsistencyError.__init__ (Some "490007") (Some "expression") (Some "V13") in
  let r2 := ConsistencyError.__init__ (Some "490006") (Some "clone") (Some "V29") in
  Permutation [r1; r2] [r2; r1] /\
  @ErrorCollection.get_error_count_msg _ _ (cpython27_key 0) [r1; r2]
    = @ErrorCollection.get_error_count_msg _ _ (cpython27_key 0) [r2; r1] /\
  @ErrorCollection.get_error_count_summary _ _ (cpython27_key 0) [r1; r2]
    = @ErrorCollection.get_error_count_summary _ _ (cpython27_key 0) [r2; r1].
Proof.
  cbv zeta. split; [apply perm_swap|].
  apply X13_count_reports_ignore_order. apply perm_swap.
Defined.

(** ** Totals over a run of ingestion calls *)

(** X14: after a run of [attach_validation_error] calls both statistics
    reports of the validation collection open with the number of records
    held before plus the number of calls, and that total is the sum of the
    per-stage counts of the summary and the sum of the per-target totals of
    the count by target. *)
Theorem X14_statistics_after_ingestion `{DictOrder pykey}
    (calls : list (string * string * gmap string string * option string))
    (h0 : ErrorHandler.t) :
  let total := length (ErrorHandler._validation_error_collection h0) + length calls in
  exists h,
    attach_validation_errors calls h0 = Ok h /\
    (exists lines : list (pykey * list ValidationError.t),
       ErrorHandler.get_validation_errors_statistics_summary h
       = Ok (fmt_nat total +:+ " error(s) occured during this run." +:+ nl
             +:+ join (map count_line lines)) /\
       list_sum (map (fun b => length b.2) lines) = total) /\
    (exists blocks : list (pykey * list (pykey * list ValidationError.t)),
       ErrorHandler.get_validation_errors_statistics_msg h
       = Ok (fmt_nat total +:+ " error(s) occured during this run." +:+ nl
             +:+ " " +:+ join (map count_section blocks)) /\
       list_sum (map block_total blocks) = total).
Proof.
  cbv zeta. rewrite attach_validation_errors_eq. eexists. split; [reflexivity|].
  unfold ErrorHandler.get_validation_errors_statistics_summary,
    ErrorHandler.get_validation_errors_statistics_msg.
  cbn [ErrorHandler._validation_error_collection].
  set (c := ErrorHandler._validation_error_collection h0 ++ _).
  assert (length c = length (ErrorHandler._validation_error_collection h0)
                     + length calls) as Hlen.
  { unfold c. by rewrite length_app, length_map. }
  split.
  - exists (PyDict.items (by_stage c)). rewrite get_error_count_summary_eq, Hlen.
    split; [done|]. rewrite <- Hlen, <- (Permutation_length (by_stage_records c)).
    by rewrite length_concat_sum, map_map.
  - exists (report_blocks c). rewrite get_error_count_msg_eq, grand_total_eq, Hlen.
    by split.
Qed.

Definition sum_counts (d : RecordCounter.t) : Z :=
  fold_right Z.add 0%Z (map snd d).

Lemma sum_counts_setitem (d : RecordCounter.t) k v :
  sum_counts (PyDict.setitem d k v)
  = (sum_counts d + v - default 0 (PyDict.find d k))%Z.
Proof.
  unfold sum_counts. induction d as [|[k' v'] d IH];
    cbn [PyDict.setitem PyDict.find map snd fold_right default from_option id].
  - lia.
  - destruct (decide (k = k')); cbn [map snd fold_right default from_option id];
      [lia | rewrite IH; lia].
Qed.

(** X15: no attached database error is lost in the counting: after a run
    of [attach_db_error] calls the counts held in the collection add up to
    what they added up to before plus the number of calls. *)
Theorem X15_db_counts_add_up (texts : list string) (h : ErrorHandler.t) :
  exists h',
    attach_db_errors texts h = Ok h' /\
    sum_counts (ErrorHandler._db_error_collection h')
    = (sum_counts (ErrorHandler._db_error_collection h) + Z.of_nat (length texts))%Z.
Proof.
  unfold attach_db_errors. revert h. induction texts as [|x texts IH]; intros h.
  - exists h. split; [done|]. cbn [length]. lia.
  - cbn [for_each]. rewrite attach_db_error_eq. cbn [mbind result_bind].
    match goal with
    | |- context [for_each texts _ ?h1] => destruct (IH h1) as (h' & -> & Hsum)
    end.
    exists h'. split; [done|]. rewrite Hsum.
    cbn [ErrorHandler._db_error_collection length].
    rewrite sum_counts_setitem, increment_value. lia.
Qed.

(** ** The full report depends on the buckets only *)

Lemma dict_rebuild {V} (d : dict pykey V) :
  NoDup (map fst d) ->
  omap (fun k => (fun v => (k, v)) <$> PyDict.find d k) (map fst d) = d.
Proof.
  intros Hnd.
  assert (forall l, (forall k v, In (k, v) l -> PyDict.find d k = Some v) ->
            omap (fun k => (fun v => (k, v)) <$> PyDict.find d k) (map fst l) = l)
    as Hl.
  { induction l as [|[k v] l IH]; [done|]. intros Hfind.
    cbn [map fst omap list_omap]. rewrite (Hfind k v) by (by left).
    cbn [fmap option_fmap option_map]. f_equal. apply IH. intros. apply Hfind.
    by right. }
  apply Hl. intros k v. by apply find_In.
Qed.

(** Two dicts with ascending keys that answer every lookup alike are the
    same dict. *)
Lemma dict_sorted_ext {V} (d1 d2 : dict pykey V) :
  StronglySorted py_ltP (map fst d1) -> StronglySorted py_ltP (map fst d2) ->
  (forall k, PyDict.find d1 k = PyDict.find d2 k) ->
  d1 = d2.
Proof.
  intros H1 H2 Hf.
  assert (map fst d1 = map fst d2) as Hk.
  { apply (StronglySorted_unique py_le); [by apply py_ltP_sorted_le..|].
    apply NoDup_Permutation; [by apply py_ltP_sorted_NoDup..|].
    intros k. rewrite !list_elem_of_In, <- !has_key_In.
    unfold PyDict.has_key. by rewrite Hf. }
  etransitivity; [symmetry; by apply dict_rebuild, py_ltP_sorted_NoDup|].
  etransitivity; [|by apply dict_rebuild, py_ltP_sorted_NoDup].
  rewrite Hk. apply list_omap_ext, Forall_Forall2_diag, Forall_forall.
  intros k _. by rewrite Hf.
Qed.

Section BucketsDecideReport.
Context {A : Type} `{ErrorRecord A} `{DictOrder pykey}.

Lemma by_stage_ext (t : pykey) (c1 c2 : list A) :
  (forall s, List.filter (in_bucket t s) c1 = List.filter (in_bucket t s) c2) ->
  by_stage (List.filter (keyed target t) c1)
  = by_stage (List.filter (keyed target t) c2).
Proof.
  intros Hb. apply dict_sorted_ext.
  - apply (groupby_sorted stage).
  - apply (groupby_sorted stage).
  - intros s. unfold by_stage. rewrite !find_groupby_sorted, !filter_and.
    pose proof (Hb s) as E. unfold in_bucket in E. by rewrite E.
Qed.

Lemma target_filter_nil (t : pykey) (c1 c2 : list A) :
  (forall s, List.filter (in_bucket t s) c1 = List.filter (in_bucket t s) c2) ->
  List.filter (keyed target t) c1 = [] -> List.filter (keyed target t) c2 = [].
Proof.
  intros Hb E1. destruct (List.filter (keyed target t) c2) as [|x v] eqn:E2; [done|].
  exfalso.
  assert (In x (List.filter (in_bucket t (stage x)) c2)) as Hin.
  { assert (In x (List.filter (keyed target t) c2)) as Hx by (rewrite E2; by left).
    apply List.filter_In in Hx as [Hx Ht]. apply List.filter_In.
    split; [done|]. unfold in_bucket. rewrite Ht. unfold keyed.
    by rewrite bool_decide_eq_true_2. }
  rewrite <- Hb in Hin. apply List.filter_In in Hin as [Hx Hxb].
  apply andb_true_iff in Hxb as [Ht _].
  assert (In x (List.filter (keyed target t) c1)) as Hx1
    by (apply List.filter_In; by split).
  by rewrite E1 in Hx1.
Qed.

Lemma grouped_ext (c1 c2 : list A) :
  (forall t s, List.filter (in_bucket t s) c1 = List.filter (in_bucket t s) c2) ->
  grouped c1 = grouped c2.
Proof.
  intros Hb. apply dict_sorted_ext; [apply grouped_targets_sorted..|].
  intros t. rewrite !find_grouped.
  pose proof (by_stage_ext t c1 c2 (Hb t)) as Hst.
  pose proof (target_filter_nil t c1 c2 (Hb t)) as H12.
  pose proof (target_filter_nil t c2 c1 (fun s => eq_sym (Hb t s))) as H21.
  destruct (List.filter (keyed target t) c1) as [|x1 v1],
           (List.filter (keyed target t) c2) as [|x2 v2];
    cbn [nonempty fmap option_fmap option_map]; try done.
  - by specialize (H12 eq_refl).
  - by specialize (H21 eq_refl).
  - by rewrite Hst.
Qed.

(** X16: the full report depends on the collection through its buckets
    only: two collections in which every (target, stage) pair has the same
    records in the same order give the same full report, however the
    records of different buckets are interleaved. *)
Theorem X16_full_report_depends_on_buckets (c1 c2 : list A) :
  (forall t s, List.filter (in_bucket t s) c1 = List.filter (in_bucket t s) c2) ->
  ErrorCollection.get_error_msg c1 = ErrorCollection.get_error_msg c2.
Proof.
  intros Hb. rewrite !get_error_msg_eq. unfold report_blocks.
  by rewrite (grouped_ext c1 c2 Hb).
Qed.
End BucketsDecideReport.

Lemma X16_full_report_depends_on_buckets_witness :
  let r1 := ConsistencyError.__init__ (Some "490007") (Some "expression") (Some "V13") in
  let r2 := ConsistencyError.__init__ (Some "490006") (Some "clone") (Some "V29") in
  (forall t s, List.filter (in_bucket t s) [r1; r2]
               = List.filter (in_bucket t s) [r2; r1]) /\
  @ErrorCollection.get_error_msg _ _ (cpython27_key 0) [r1; r2]
    = @ErrorCollection.get_error_msg _ _ (cpython27_key 0) [r2; r1].
Proof.
  cbv zeta.
  assert (forall t s,
            List.filter (in_bucket t s)
              [ConsistencyError.__init__ (Some "490007") (Some "expression") (Some "V13");
               ConsistencyError.__init__ (Some "490006") (Some "clone") (Some "V29")]
            = List.filter (in_bucket t s)
                [ConsistencyError.__init__ (Some "490006") (Some "clone") (Some "V29");
                 ConsistencyError.__init__ (Some "490007") (Some "expression") (Some "V13")])
    as Hb.
  { intros t s. unfold in_bucket, keyed. cbn.
    repeat case_bool_decide; simplify_eq; done. }
  split; [exact Hb|]. apply X16_full_report_depends_on_buckets. exact Hb.
Defined.
